(** * Collections backend (server.js): arrears classification, template
      selection, message rendering, dispatch and campaign comparison.

    A shallow embedding of the request handlers and of the scheduled job of
    the collections server, with the theorems that settle the statements of
    its specification.

    Conventions of the embedding.
    - A JavaScript [Date] is its time value, an integer number of milliseconds
      ([Z]).  Only valid dates are stored by the schema.
    - A Mongo collection is the list of its documents in natural order, and
      the [_id] of a document is its position in that list.  Documents are
      never deleted by the code embedded here, so positions are stable.
    - Schema enumerations ([estado], [tipo], [tono]) are inductive types; the
      fields of a request body stay strings, as they arrive unvalidated.
    - [await]ed capabilities that may reject (the store, the transports) take
      their outcome from an environment; handlers run in a state and
      exception monad, and a rejection is an exception. *)

From Stdlib Require Import ZArith String Ascii Bool Lia.
From Stdlib Require Import DecimalString.
From Corelib Require Import SpecFloat.
From stdpp Require Import base option list sorting.

Local Open Scope string_scope.
Local Open Scope Z_scope.

(** ** Exceptions and the effect monad *)

Inductive Excepcion : Type :=
| ErrorTransporte (message : string)
| ErrorAlmacen (message : string)
| TypeErrorNull (propiedad : string).

(** [error.message] *)
Definition mensaje (e : Excepcion) : string :=
  match e with
  | ErrorTransporte m => m
  | ErrorAlmacen m => m
  | TypeErrorNull p => ("Cannot read properties of null (reading '" ++ p ++ "')")%string
  end.

(** A computation over a store [S]: the store it leaves, and either the
    exception it threw or its value.  What was written before a throw stays
    written. *)
Definition Efecto (S A : Type) : Type := S -> S * (Excepcion + A).

Definition devolver {S A} (a : A) : Efecto S A := fun s => (s, inr a).

Definition ligar {S A B} (m : Efecto S A) (k : A -> Efecto S B) : Efecto S B :=
  fun s =>
    match m s with
    | (s', inr a) => k a s'
    | (s', inl e) => (s', inl e)
    end.

Definition lanzar {S A} (e : Excepcion) : Efecto S A := fun s => (s, inl e).

(** [try { m } catch (e) { h e }] *)
Definition intentar {S A} (m : Efecto S A) (h : Excepcion -> Efecto S A) : Efecto S A :=
  fun s =>
    match m s with
    | (s', inl e) => h e s'
    | (s', inr a) => (s', inr a)
    end.

Definition modificar {S} (f : S -> S) : Efecto S unit := fun s => (f s, inr tt).

Definition leer {S A} (f : S -> A) : Efecto S A := fun s => (s, inr (f s)).

Global Instance efecto_ret {S} : MRet (Efecto S) := fun A => @devolver S A.
Global Instance efecto_bind {S} : MBind (Efecto S) := fun A B k m => @ligar S A B m k.

(** [for (const x of xs) { cuerpo x }] *)
Fixpoint para_cada {S A} (cuerpo : A -> Efecto S unit) (xs : list A) : Efecto S unit :=
  match xs with
  | [] => devolver tt
  | x :: resto => cuerpo x;; para_cada cuerpo resto
  end.

(** ** Debts *)

(** [deudaSchema.estado], the enumeration of the schema. *)
Inductive EstadoDeuda : Type :=
| pendiente | mora_temprana | mora_media | mora_avanzada | pagada | cancelada.

Global Instance EstadoDeuda_eq_dec : EqDecision EstadoDeuda.
Proof. solve_decision. Defined.

Record Deuda : Type := {
  deuda_clienteId : nat;
  deuda_monto : Z;
  deuda_fechaVencimiento : Z;
  deuda_diasMora : Z;
  deuda_estado : EstadoDeuda;
  deuda_facturaNumero : option string
}.

(** The update document [{ diasMora, estado }] applied to a debt. *)
Definition con_mora (diasMora : Z) (estado : EstadoDeuda) (d : Deuda) : Deuda :=
  {| deuda_clienteId := deuda_clienteId d;
     deuda_monto := deuda_monto d;
     deuda_fechaVencimiento := deuda_fechaVencimiento d;
     deuda_diasMora := diasMora;
     deuda_estado := estado;
     deuda_facturaNumero := deuda_facturaNumero d |}.

(** [1000 * 60 * 60 * 24] *)
Definition ms_por_dia : Z := 1000 * 60 * 60 * 24.

(** [Math.floor((hoy - fechaVencimiento) / (1000 * 60 * 60 * 24))].  The
    difference of two time values is an integer below 2^53, for which the
    floor of the double quotient is the integer quotient. *)
Definition dias_entre (hoy fechaVencimiento : Z) : Z :=
  (hoy - fechaVencimiento) / ms_por_dia.

(** The chain [if (diasMora <= 30) ... else if (diasMora <= 90) ... else ...]
    shared by the creation handler and the scheduled job. *)
Definition estado_por_dias (diasMora : Z) : EstadoDeuda :=
  if diasMora <=? 30 then mora_temprana
  else if diasMora <=? 90 then mora_media
  else mora_avanzada.

(** POST /api/deudas, the computation between [new Deuda(req.body)] and
    [deuda.save()]: the document is changed only when [hoy] is past the due
    date. *)
Definition clasificar_alta (hoy : Z) (deuda : Deuda) : Deuda :=
  let fechaVencimiento := deuda_fechaVencimiento deuda in
  if hoy >? fechaVencimiento then
    let deuda := con_mora (dias_entre hoy fechaVencimiento) (deuda_estado deuda) deuda in
    con_mora (deuda_diasMora deuda) (estado_por_dias (deuda_diasMora deuda)) deuda
  else deuda.

(** The store of debts and the capability [Deuda.findByIdAndUpdate]: the
    environment says for which [_id] the store rejects the write. *)
Definition findByIdAndUpdate (rechaza : nat -> bool) (id : nat)
    (diasMora : Z) (estado : EstadoDeuda) : Efecto (list Deuda) unit :=
  if rechaza id then lanzar (ErrorAlmacen "findByIdAndUpdate")
  else modificar (alter (con_mora diasMora estado) id).

(** [Deuda.find({ estado: { $ne: 'pagada' } })]: the matching documents, each
    with its [_id], as they are when the query runs. *)
Definition find_no_pagadas (deudas : list Deuda) : list (nat * Deuda) :=
  filter (fun p => deuda_estado p.2 <> pagada) (imap pair deudas).

(** The body of the loop of [actualizarDiasMora]. *)
Definition paso_barrido (hoy : Z) (rechaza : nat -> bool) (item : nat * Deuda)
    : Efecto (list Deuda) unit :=
  let '(_id, deuda) := item in
  let fechaVencimiento := deuda_fechaVencimiento deuda in
  if hoy >? fechaVencimiento then
    let diasMora := dias_entre hoy fechaVencimiento in
    let nuevoEstado := estado_por_dias diasMora in
    findByIdAndUpdate rechaza _id diasMora nuevoEstado
  else devolver tt.

(** What the job writes to the console. *)
Inductive Registro : Type :=
| RegistroLog (linea : string)
| RegistroError (linea : string) (err : Excepcion).

(** [actualizarDiasMora], with [hoy] the value of [new Date()] and the store
    of debts as state.  One [try] encloses the query and the whole loop. *)
Definition actualizarDiasMora (hoy : Z) (rechaza : nat -> bool)
    (deudas : list Deuda) : list Deuda * Registro :=
  let cuerpo : Efecto (list Deuda) unit :=
    snapshot ← leer find_no_pagadas;
    para_cada (paso_barrido hoy rechaza) snapshot in
  match cuerpo deudas with
  | (deudas', inr _) => (deudas', RegistroLog "Días en mora actualizados correctamente")
  | (deudas', inl err) => (deudas', RegistroError "Error actualizando días en mora:" err)
  end.

(** ** Customers, templates, communications, campaigns *)

Record Cliente : Type := {
  cliente_nombre : string;
  cliente_email : string;
  cliente_telefono : string;
  cliente_whatsapp : option string
}.

(** [enum: ['email', 'sms', 'whatsapp']] *)
Inductive Canal : Type := email | sms | whatsapp.

(** [enum: ['amigable', 'formal', 'urgente', 'legal']] *)
Inductive Tono : Type := amigable | formal | urgente | legal.

Definition nombre_canal (c : Canal) : string :=
  match c with email => "email" | sms => "sms" | whatsapp => "whatsapp" end.

Definition nombre_tono (t : Tono) : string :=
  match t with
  | amigable => "amigable" | formal => "formal"
  | urgente => "urgente" | legal => "legal"
  end.

Record Plantilla : Type := {
  plantilla_nombre : string;
  plantilla_tipo : Canal;
  plantilla_tono : Tono;
  plantilla_diasMora : Z;
  plantilla_plantilla : string;
  plantilla_variables : list string;
  plantilla_activa : bool
}.

(** [enum: ['enviado', 'entregado', 'leido', 'respondido', 'error']] *)
Inductive EstadoComunicacion : Type :=
| enviado | entregado | leido | respondido | error.

Record Comunicacion : Type := {
  com_clienteId : nat;
  com_deudaId : nat;
  com_tipo : string;
  com_contenido : string;
  com_tono : string;
  com_estado : EstadoComunicacion;
  com_campaniaId : option nat
}.

(** [comunicacion.estado = e] *)
Definition con_estado (e : EstadoComunicacion) (c : Comunicacion) : Comunicacion :=
  {| com_clienteId := com_clienteId c;
     com_deudaId := com_deudaId c;
     com_tipo := com_tipo c;
     com_contenido := com_contenido c;
     com_tono := com_tono c;
     com_estado := e;
     com_campaniaId := com_campaniaId c |}.

Record Metricas : Type := {
  enviados : Z;
  entregados : Z;
  leidos : Z;
  respondidos : Z;
  pagos : Z;
  tasaConversion : Z
}.

Record Campania : Type := {
  campania_nombre : string;
  campania_metricas : Metricas
}.

(** [{ $inc: { 'metricas.enviados': 1, 'metricas.entregados': 1 } }] *)
Definition inc_enviados_entregados (c : Campania) : Campania :=
  let m := campania_metricas c in
  {| campania_nombre := campania_nombre c;
     campania_metricas :=
       {| enviados := enviados m + 1;
          entregados := entregados m + 1;
          leidos := leidos m;
          respondidos := respondidos m;
          pagos := pagos m;
          tasaConversion := tasaConversion m |} |}.

(** ** Template selection *)

(** The filter [{ tipo, tono, diasMora: { $lte: deuda.diasMora }, activa: true }].
    The stored [tipo] and [tono] are values of the schema enumerations; the
    requested ones are the strings of the request body. *)
Definition coincide (tipo tono : string) (diasMora : Z) (p : Plantilla) : bool :=
  String.eqb (nombre_canal (plantilla_tipo p)) tipo
  && String.eqb (nombre_tono (plantilla_tono p)) tono
  && (plantilla_diasMora p <=? diasMora)
  && Bool.eqb (plantilla_activa p) true.

(** The head of the list sorted by [{ diasMora: -1 }]: a template of largest
    [diasMora]; among equals the sort keeps the earliest. *)
Fixpoint primera_mayor (ps : list Plantilla) : option Plantilla :=
  match ps with
  | [] => None
  | p :: resto =>
      match primera_mayor resto with
      | Some q => if plantilla_diasMora p <? plantilla_diasMora q then Some q else Some p
      | None => Some p
      end
  end.

(** [Plantilla.findOne({...}).sort({ diasMora: -1 })] *)
Definition Plantilla_findOne (tipo tono : string) (diasMora : Z)
    (plantillas : list Plantilla) : option Plantilla :=
  primera_mayor (List.filter (coincide tipo tono diasMora) plantillas).

(** ** Rendering *)

(** [GetSubstitution] of ECMAScript for a string pattern: no captures, so only
    [$$], [$&], [$`] and [$'] are special in the replacement text. *)
Fixpoint GetSubstitution (matched antes despues replacement : string) : string :=
  match replacement with
  | EmptyString => EmptyString
  | String c resto =>
      if Ascii.eqb c "$" then
        match resto with
        | String d resto' =>
            if Ascii.eqb d "$" then String "$" (GetSubstitution matched antes despues resto')
            else if Ascii.eqb d "&" then (matched ++ GetSubstitution matched antes despues resto')%string
            else if Ascii.eqb d "`" then (antes ++ GetSubstitution matched antes despues resto')%string
            else if Ascii.eqb d "'" then (despues ++ GetSubstitution matched antes despues resto')%string
            else String c (GetSubstitution matched antes despues resto)
        | EmptyString => String c EmptyString
        end
      else String c (GetSubstitution matched antes despues resto)
  end.

(** [str.replace(pattern, replacement)] with a string pattern: the first
    occurrence only. *)
Definition String_replace (str pattern replacement : string) : string :=
  match String.index 0 pattern str with
  | None => str
  | Some pos =>
      let fin := (pos + String.length pattern)%nat in
      let antes := String.substring 0 pos str in
      let despues := String.substring fin (String.length str - fin) str in
      (antes ++ GetSubstitution pattern antes despues replacement ++ despues)%string
  end.

(** [String(n)] for an integer Number. *)
Definition texto_Z (n : Z) : string := NilZero.string_of_int (Z.to_int n).

(** A value interpolated in a template literal; a missing one reads
    [undefined]. *)
Definition interpolar (v : option string) : string := default "undefined" v.

(** What is handed to a channel provider: the argument of
    [emailTransporter.sendMail] or of [twilioClient.messages.create]. *)
Inductive Mensaje : Type :=
| SendMail (from to subject html : string)
| MessagesCreate (body from to : string).

(** What the process is given: the locale formats, the variables of
    [process.env], and the outcome of every awaited capability (for a
    rejection, the message of the error). *)
Record Entorno : Type := {
  toLocaleString : Z -> string;
  toLocaleDateString : Z -> string;
  EMAIL_USER : option string;
  TWILIO_PHONE : option string;
  TWILIO_WHATSAPP : option string;
  transporte_rechaza : Mensaje -> option string;
  save_rechaza : Comunicacion -> option string;
  inc_rechaza : nat -> option string
}.

(** The four chained replacements that build [contenido]. *)
Definition contenido_de (env : Entorno) (plantilla : Plantilla)
    (cliente : Cliente) (deuda : Deuda) : string :=
  String_replace
    (String_replace
       (String_replace
          (String_replace (plantilla_plantilla plantilla)
             "{nombre}" (cliente_nombre cliente))
          "{monto}" ("$" ++ toLocaleString env (deuda_monto deuda))%string)
       "{dias_mora}" (texto_Z (deuda_diasMora deuda)))
    "{fecha_vencimiento}" (toLocaleDateString env (deuda_fechaVencimiento deuda)).

(** ** Dispatch: POST /api/comunicaciones/enviar *)

(** The body of the request, [req.body]. *)
Record Peticion : Type := {
  req_clienteId : nat;
  req_deudaId : nat;
  req_tipo : string;
  req_tono : string;
  req_campaniaId : option nat
}.

(** The calls made on the collaborators, in order, whether they resolve or
    reject. *)
Inductive Operacion : Type :=
| OpTransporte (m : Mensaje)
| OpSave (_id : nat) (c : Comunicacion)
| OpInc (campaniaId : nat).

Record Mundo : Type := {
  bd_clientes : list Cliente;
  bd_deudas : list Deuda;
  bd_plantillas : list Plantilla;
  bd_comunicaciones : list Comunicacion;
  bd_campanias : list Campania;
  traza : list Operacion
}.

Definition anotar (op : Operacion) (m : Mundo) : Mundo :=
  {| bd_clientes := bd_clientes m; bd_deudas := bd_deudas m;
     bd_plantillas := bd_plantillas m; bd_comunicaciones := bd_comunicaciones m;
     bd_campanias := bd_campanias m; traza := traza m ++ [op] |}.

Definition con_comunicaciones (cs : list Comunicacion) (m : Mundo) : Mundo :=
  {| bd_clientes := bd_clientes m; bd_deudas := bd_deudas m;
     bd_plantillas := bd_plantillas m; bd_comunicaciones := cs;
     bd_campanias := bd_campanias m; traza := traza m |}.

Definition con_campanias (cs : list Campania) (m : Mundo) : Mundo :=
  {| bd_clientes := bd_clientes m; bd_deudas := bd_deudas m;
     bd_plantillas := bd_plantillas m; bd_comunicaciones := bd_comunicaciones m;
     bd_campanias := cs; traza := traza m |}.

(** A call on a channel provider. *)
Definition transportar (env : Entorno) (msg : Mensaje) : Efecto Mundo unit :=
  modificar (anotar (OpTransporte msg));;
  match transporte_rechaza env msg with
  | Some message => lanzar (ErrorTransporte message)
  | None => mret tt
  end.

(** The row of a document in its collection: written in place when the
    document is already stored, appended when it is new. *)
Definition escribir_fila (_id : nat) (c : Comunicacion)
    (cs : list Comunicacion) : list Comunicacion :=
  if decide (_id < length cs)%nat then <[_id := c]> cs else cs ++ [c].

(** [comunicacion.save()] *)
Definition Comunicacion_save (env : Entorno) (_id : nat) (c : Comunicacion)
    : Efecto Mundo unit :=
  modificar (anotar (OpSave _id c));;
  match save_rechaza env c with
  | Some message => lanzar (ErrorAlmacen message)
  | None => modificar (fun m => con_comunicaciones (escribir_fila _id c (bd_comunicaciones m)) m)
  end.

(** [Campania.findByIdAndUpdate(campaniaId, { $inc: ... })]; an [_id] that
    names no campaign updates nothing. *)
Definition Campania_findByIdAndUpdate (env : Entorno) (campaniaId : nat)
    : Efecto Mundo unit :=
  modificar (anotar (OpInc campaniaId));;
  match inc_rechaza env campaniaId with
  | Some message => lanzar (ErrorAlmacen message)
  | None => modificar (fun m => con_campanias (alter inc_enviados_entregados campaniaId (bd_campanias m)) m)
  end.

(** One side of the comparison of two campaigns. *)
Record Resumen : Type := {
  resumen_nombre : string;
  resumen_metricas : Metricas;
  resumen_tasaApertura : string;
  resumen_tasaRespuesta : string;
  resumen_tasaConversion : string
}.

Inductive Cuerpo : Type :=
| CuerpoError (error : string)
| CuerpoErrorDetalle (error details : string)
| CuerpoExito (comunicacion : Comunicacion)
| CuerpoDeuda (deuda : Deuda)
| CuerpoComparacion (campaniaA campaniaB : Resumen).

(** [res.status(s).json(c)] *)
Record Respuesta : Type := { status : Z; json : Cuerpo }.

(** The [switch (tipo)] of the handler: the provider call of the channel, and
    whether a case was taken ([enviado]). *)
Definition despachar (env : Entorno) (tipo contenido : string)
    (cliente : Cliente) (deuda : Deuda) : Efecto Mundo bool :=
  if String.eqb tipo "email" then
    transportar env
      (SendMail (interpolar (EMAIL_USER env)) (cliente_email cliente)
         ("Recordatorio de pago - Factura " ++ interpolar (deuda_facturaNumero deuda))%string
         contenido);;
    mret true
  else if String.eqb tipo "sms" then
    transportar env
      (MessagesCreate contenido (interpolar (TWILIO_PHONE env)) (cliente_telefono cliente));;
    mret true
  else if String.eqb tipo "whatsapp" then
    transportar env
      (MessagesCreate contenido
         ("whatsapp:" ++ interpolar (TWILIO_WHATSAPP env))%string
         ("whatsapp:" ++ interpolar (cliente_whatsapp cliente))%string);;
    mret true
  else mret false.

(** The handler.  [None] is the case in which no response is written.
    [new Comunicacion({...})] gives the document its [_id] at once: the
    position its row will take in the collection. *)
Definition enviar (env : Entorno) (req : Peticion) (m : Mundo)
    : Mundo * option Respuesta :=
  let tipo := req_tipo req in
  let tono := req_tono req in
  let campaniaId := req_campaniaId req in
  let cuerpo : Efecto Mundo (option Respuesta) :=
    cliente ← leer (fun m => bd_clientes m !! req_clienteId req);
    deuda ← leer (fun m => bd_deudas m !! req_deudaId req);
    match cliente, deuda with
    | Some cliente, Some deuda =>
        plantilla ← leer (fun m =>
          Plantilla_findOne tipo tono (deuda_diasMora deuda) (bd_plantillas m));
        match plantilla with
        | None =>
            mret (Some {| status := 404;
                          json := CuerpoError "No se encontró plantilla apropiada" |})
        | Some plantilla =>
            let contenido := contenido_de env plantilla cliente deuda in
            _id ← leer (fun m => length (bd_comunicaciones m));
            let comunicacion :=
              {| com_clienteId := req_clienteId req; com_deudaId := req_deudaId req;
                 com_tipo := tipo; com_contenido := contenido; com_tono := tono;
                 com_estado := enviado; com_campaniaId := campaniaId |} in
            intentar
              (enviado ← despachar env tipo contenido cliente deuda;
               if enviado : bool then
                 let comunicacion := con_estado entregado comunicacion in
                 Comunicacion_save env _id comunicacion;;
                 match campaniaId with
                 | Some campaniaId => Campania_findByIdAndUpdate env campaniaId
                 | None => mret tt
                 end;;
                 mret (Some {| status := 200; json := CuerpoExito comunicacion |})
               else mret None)
              (fun envioError =>
                 let comunicacion := con_estado error comunicacion in
                 Comunicacion_save env _id comunicacion;;
                 mret (Some {| status := 500;
                               json := CuerpoErrorDetalle "Error al enviar comunicación"
                                         (mensaje envioError) |}))
        end
    | _, _ =>
        mret (Some {| status := 404; json := CuerpoError "Cliente o deuda no encontrada" |})
    end in
  match cuerpo m with
  | (m', inr respuesta) => (m', respuesta)
  | (m', inl err) => (m', Some {| status := 500; json := CuerpoError (mensaje err) |})
  end.

(** ** Creation of a debt: POST /api/deudas *)

(** [deuda] is the document [new Deuda(req.body)], defaults filled in. *)
Definition crear_deuda (hoy : Z) (rechaza : Deuda -> option string)
    (deuda : Deuda) (deudas : list Deuda) : list Deuda * Respuesta :=
  let deuda := clasificar_alta hoy deuda in
  match rechaza deuda with
  | Some message => (deudas, {| status := 400; json := CuerpoError message |})
  | None => ((deudas ++ [deuda])%list, {| status := 201; json := CuerpoDeuda deuda |})
  end.

(** ** Numbers: IEEE 754 binary64 *)

Definition prec : Z := 53.
Definition emax : Z := 1024.

(** The Number of an integer held by the store. *)
Definition Number_de_Z (z : Z) : spec_float := binary_normalize prec emax z 0 false.

(** [x / y] and [x * y] on Numbers. *)
Definition Number_div : spec_float -> spec_float -> spec_float := SFdiv prec emax.
Definition Number_mul : spec_float -> spec_float -> spec_float := SFmul prec emax.

(** [10^21 <= m * 2^e] *)
Definition desde_1e21 (m : positive) (e : Z) : bool :=
  match e with
  | Zneg k => 10 ^ 21 * 2 ^ Zpos k <=? Zpos m
  | _ => 10 ^ 21 <=? Zpos m * 2 ^ e
  end.

(** The integer [n] for which [n / 100 - m * 2^e] is closest to zero, the
    larger one when there are two. *)
Definition centesimas (m : positive) (e : Z) : Z :=
  match e with
  | Zneg k => (200 * Zpos m + 2 ^ Zpos k) / 2 ^ (Zpos k + 1)
  | _ => 100 * Zpos m * 2 ^ e
  end.

(** The digits of [n], at least three, with a point before the last two. *)
Definition con_dos_decimales (n : Z) : string :=
  (texto_Z (n / 100) ++ "." ++ texto_Z (n mod 100 / 10) ++ texto_Z (n mod 10))%string.

Section Comparar.

(** [Number::toString] for a finite Number of magnitude 10^21 or more, the
    only use [toFixed] makes of it that is not spelled out below. *)
Variable Number_toString : spec_float -> string.

(** [x.toFixed(2)] *)
Definition toFixed2 (x : spec_float) : string :=
  match x with
  | S754_nan => "NaN"
  | S754_infinity false => "Infinity"
  | S754_infinity true => "-Infinity"
  | S754_zero _ => "0.00"
  | S754_finite s m e =>
      if desde_1e21 m e then Number_toString x
      else ((if s then "-" else EmptyString) ++ con_dos_decimales (centesimas m e))%string
  end.

(** [(cuenta / enviados * 100).toFixed(2)] *)
Definition tasa (cuenta enviados : Z) : string :=
  toFixed2
    (Number_mul (Number_div (Number_de_Z cuenta) (Number_de_Z enviados))
       (Number_de_Z 100)).

(** Reading the properties of [data]; on [null] the first read throws. *)
Definition resumir (data : option Campania) : Efecto unit Resumen :=
  match data with
  | None => lanzar (TypeErrorNull "nombre")
  | Some data =>
      let metricas := campania_metricas data in
      mret {| resumen_nombre := campania_nombre data;
              resumen_metricas := metricas;
              resumen_tasaApertura := tasa (leidos metricas) (enviados metricas);
              resumen_tasaRespuesta := tasa (respondidos metricas) (enviados metricas);
              resumen_tasaConversion := tasa (pagos metricas) (enviados metricas) |}
  end.

(** GET /api/campanias/comparar/:campaniaA/:campaniaB *)
Definition comparar (campanias : list Campania) (campaniaA campaniaB : nat)
    : Respuesta :=
  let campaniaAData := campanias !! campaniaA in
  let campaniaBData := campanias !! campaniaB in
  let cuerpo : Efecto unit Cuerpo :=
    a ← resumir campaniaAData;
    b ← resumir campaniaBData;
    mret (CuerpoComparacion a b) in
  match cuerpo tt with
  | (_, inr comparacion) => {| status := 200; json := comparacion |}
  | (_, inl err) => {| status := 500; json := CuerpoError (mensaje err) |}
  end.

End Comparar.

(** ** The scheduled job as one pass over the store

    These definitions restate the loop of [actualizarDiasMora] as a single
    recursion over the collection; [actualizarDiasMora_pasada] below proves
    that the job computes exactly this. *)

(** Whether the job writes the debt [d]: it was returned by the query and
    [hoy] is past its due date. *)
Definition toca (hoy : Z) (d : Deuda) : bool :=
  bool_decide (deuda_estado d <> pagada) && (hoy >? deuda_fechaVencimiento d).

(** The document the job leaves for a debt it gets to. *)
Definition reclasificar (hoy : Z) (d : Deuda) : Deuda :=
  if toca hoy d
  then con_mora (dias_entre hoy (deuda_fechaVencimiento d))
         (estado_por_dias (dias_entre hoy (deuda_fechaVencimiento d))) d
  else d.

(** The pass from position [i] on; it stops at the first rejected write. *)
Fixpoint pasada (hoy : Z) (rechaza : nat -> bool) (i : nat) (ds : list Deuda)
    : list Deuda * option Excepcion :=
  match ds with
  | [] => ([], None)
  | d :: resto =>
      if toca hoy d && rechaza i
      then (d :: resto, Some (ErrorAlmacen "findByIdAndUpdate"))
      else let r := pasada hoy rechaza (S i) resto in
           (reclasificar hoy d :: r.1, r.2)
  end.

Definition registro_de (e : option Excepcion) : Registro :=
  match e with
  | None => RegistroLog "Días en mora actualizados correctamente"
  | Some err => RegistroError "Error actualizando días en mora:" err
  end.

(** ** Counting effects *)

(** The number of campaign increments among the calls of a trace. *)
Definition incrementos (t : list Operacion) : nat :=
  length (List.filter (fun op => match op with OpInc _ => true | _ => false end) t).

(** ** Sample documents *)

(** A debt as [new Deuda(req.body)] builds it from a body that gives the due
    date and the state only. *)
Definition deuda_de (fechaVencimiento : Z) (estado : EstadoDeuda) : Deuda :=
  {| deuda_clienteId := 0; deuda_monto := 1500;
     deuda_fechaVencimiento := fechaVencimiento; deuda_diasMora := 0;
     deuda_estado := estado; deuda_facturaNumero := Some "F-001" |}.


Definition cliente_ana : Cliente :=
  {| cliente_nombre := "Ana"; cliente_email := "ana@email.com";
     cliente_telefono := "+50212345678"; cliente_whatsapp := None |}.

(** A debt 45 days in arrears. *)
Definition deuda_45 : Deuda :=
  {| deuda_clienteId := 0; deuda_monto := 1500;
     deuda_fechaVencimiento := 0; deuda_diasMora := 45;
     deuda_estado := mora_media; deuda_facturaNumero := Some "F-001" |}.

Definition plantilla_formal (diasMora : Z) (texto : string) : Plantilla :=
  {| plantilla_nombre := "Recordatorio formal"; plantilla_tipo := email;
     plantilla_tono := formal; plantilla_diasMora := diasMora;
     plantilla_plantilla := texto;
     plantilla_variables := ["nombre"; "monto"; "dias_mora"; "fecha_vencimiento"];
     plantilla_activa := true |}.

(** Formal email templates at the thresholds 0, 30 and 90. *)
Definition catalogo : list Plantilla :=
  [ plantilla_formal 0 "Estimado {nombre}, su factura vence el {fecha_vencimiento}.";
    plantilla_formal 30 "Estimado {nombre}, su saldo de {monto} tiene {dias_mora} días de mora.";
    plantilla_formal 90 "Estimado {nombre}, su caso pasa a gestión legal." ].

(** A campaign as the schema creates it: every counter at its default. *)
Definition campania_nueva (nombre : string) : Campania :=
  {| campania_nombre := nombre;
     campania_metricas :=
       {| enviados := 0; entregados := 0; leidos := 0; respondidos := 0;
          pagos := 0; tasaConversion := 0 |} |}.

Definition mundo_ejemplo : Mundo :=
  {| bd_clientes := [cliente_ana]; bd_deudas := [deuda_45];
     bd_plantillas := catalogo; bd_comunicaciones := [];
     bd_campanias := [campania_nueva "A"]; traza := [] |}.

(** An environment whose store accepts every write; [rechazo] is what the
    channel providers answer. *)
Definition entorno_ejemplo (rechazo : option string) : Entorno :=
  {| toLocaleString := texto_Z;
     toLocaleDateString := fun _ => "1/1/1970";
     EMAIL_USER := Some "cobranza@email.com";
     TWILIO_PHONE := None; TWILIO_WHATSAPP := None;
     transporte_rechaza := fun _ => rechazo;
     save_rechaza := fun _ => None;
     inc_rechaza := fun _ => None |}.

Definition peticion (tono : string) : Peticion :=
  {| req_clienteId := 0; req_deudaId := 0; req_tipo := "email";
     req_tono := tono; req_campaniaId := Some 0%nat |}.

(** ** Measures used to state further properties *)

(** The number of provider calls among the calls of a trace. *)
Definition transportes (t : list Operacion) : nat :=
  length (List.filter (fun op => match op with OpTransporte _ => true | _ => false end) t).

(** How far a state is along the arrears path. *)
Definition rango (e : EstadoDeuda) : Z :=
  match e with
  | pendiente => 0
  | mora_temprana => 1
  | mora_media => 2
  | mora_avanzada => 3
  | pagada => 4
  | cancelada => 5
  end.

(** [cuenta / enviados * 100], the Number that [toFixed] is applied to. *)
Definition Number_tasa (cuenta enviados : Z) : spec_float :=
  Number_mul (Number_div (Number_de_Z cuenta) (Number_de_Z enviados)) (Number_de_Z 100).

(** ** The validator of the debts collection

    [db.createCollection("deudas", { validator: { $jsonSchema: ... } })] of
    the initialization script, on a document of the schema: the required
    fields are there and [estado] is of the enumeration by the type of the
    record, which leaves the two minimums. *)
Definition validador_deudas (d : Deuda) : bool :=
  (0 <=? deuda_monto d) && (0 <=? deuda_diasMora d).

(** ** Health endpoint: GET /api/health *)

(** The values the health endpoint puts in its answer. *)
#[local] Unset Elimination Schemes.
Inductive JSON : Type :=
| JNumber (n : Z)
| JString (s : string)
| JObject (propiedades : list (string * JSON)).
#[local] Set Elimination Schemes.

(** Defining the property [k] of an object under construction: a key that
    is already there keeps its place and takes the new value, a new key goes
    last. *)
Fixpoint definir (k : string) (v : JSON) (o : list (string * JSON))
    : list (string * JSON) :=
  match o with
  | [] => [(k, v)]
  | (k', v') :: resto =>
      if String.eqb k' k then (k', v) :: resto else (k', v') :: definir k v resto
  end.

(** [{ ...o, ...fuente }]: the properties of [fuente] are defined on [o] in
    their order. *)
Definition extender (o fuente : list (string * JSON)) : list (string * JSON) :=
  fold_left (fun acc kv => definir kv.1 kv.2 acc) fuente o.

(** [o[k]] *)
Fixpoint propiedad (k : string) (o : list (string * JSON)) : option JSON :=
  match o with
  | [] => None
  | (k', v) :: resto => if String.eqb k' k then Some v else propiedad k resto
  end.

(** What the endpoint reads of the process: the state of the mongoose
    connection, [new Date().toISOString()], [Math.floor(uptime / 60)] and the
    two [Math.round(... / 1024 / 1024)] of the heap. *)
Record Proceso : Type := {
  readyState : Z;
  toISOString : string;
  uptime_minutos : Z;
  heapUsed_MB : Z;
  heapTotal_MB : Z
}.

Record RespuestaJSON : Type := { codigo : Z; cuerpo : JSON }.

Definition mongoStatus (p : Proceso) : string :=
  if readyState p =? 1 then "connected" else "disconnected".

(** The object literal [healthData]. *)
Definition healthData (p : Proceso) : list (string * JSON) :=
  [ ("status", JString "OK");
    ("timestamp", JString (toISOString p));
    ("uptime", JString (texto_Z (uptime_minutos p) ++ " minutos")%string);
    ("version", JString "1.0.0");
    ("services",
     JObject
       [ ("mongodb", JString (mongoStatus p));
         ("memory",
          JObject [ ("used", JNumber (heapUsed_MB p));
                    ("total", JNumber (heapTotal_MB p));
                    ("unit", JString "MB") ]) ]) ].

(** The handler of GET /api/health. *)
Definition health (p : Proceso) : RespuestaJSON :=
  if negb (String.eqb (mongoStatus p) "connected") then
    {| codigo := 503;
       cuerpo :=
         JObject
           (extender [ ("status", JString "ERROR");
                       ("message", JString "Base de datos no disponible") ]
              (healthData p)) |}
  else {| codigo := 200; cuerpo := JObject (healthData p) |}.

(** ** The container probe: healthcheck.js *)

(** [a || b] on a variable of the environment: unset and empty both give
    the default. *)
Definition o_bien (v : option string) (d : string) : string :=
  match v with
  | Some s => if String.eqb s EmptyString then d else s
  | None => d
  end.

(** What comes back from the request of [checkHTTP]: a response, an [error]
    event, or the [timeout] event. *)
Inductive SucesoHTTP : Type :=
| HTTPResponse (statusCode : Z)
| HTTPError (message : string)
| HTTPTimeout.

(** What the probe does that can be observed. *)
Inductive Llamada : Type :=
| ConsoleLog (linea : string)
| ConsoleError (linea message : string)
| HttpRequest (port path : string)
| MongooseConnect (uri : string)
| MongooseClose.

(** The surroundings of the probe: its variables and what its two
    collaborators answer ([mongoose.connect] the message of its error, if
    any). *)
Record Sonda : Type := {
  PORT : option string;
  MONGODB_URI : option string;
  http_request : string -> string -> SucesoHTTP;
  mongoose_connect : string -> option string
}.

(** [checkHTTP]: the promise is resolved with a text or rejected with an
    error, modelled by its message. *)
Definition checkHTTP (s : Sonda) : Efecto (list Llamada) string :=
  let port := o_bien (PORT s) "3000" in
  modificar (fun t => (t ++ [HttpRequest port "/api/health"])%list);;
  match http_request s port "/api/health" with
  | HTTPResponse statusCode =>
      if statusCode =? 200 then mret "HTTP OK"
      else lanzar (ErrorTransporte ("HTTP Status: " ++ texto_Z statusCode)%string)
  | HTTPError message => lanzar (ErrorTransporte message)
  | HTTPTimeout => lanzar (ErrorTransporte "HTTP Timeout")
  end.

(** [checkMongoDB] *)
Definition checkMongoDB (s : Sonda) : Efecto (list Llamada) string :=
  let mongoUri := o_bien (MONGODB_URI s) "mongodb://localhost:27017/cobranza_ai" in
  modificar (fun t => (t ++ [MongooseConnect mongoUri])%list);;
  match mongoose_connect s mongoUri with
  | None =>
      modificar (fun t => (t ++ [MongooseClose])%list);;
      mret "MongoDB OK"
  | Some message => lanzar (ErrorAlmacen ("MongoDB Error: " ++ message)%string)
  end.

Definition console_log (linea : string) : Efecto (list Llamada) unit :=
  modificar (fun t => (t ++ [ConsoleLog linea])%list).

(** [healthCheck]: what the probe did, and the code it exits with. *)
Definition healthCheck (s : Sonda) : list Llamada * Z :=
  let cuerpo : Efecto (list Llamada) Z :=
    console_log "🔍 Iniciando verificación de salud...";;
    checkHTTP s;;
    console_log "✅ HTTP Server: OK";;
    checkMongoDB s;;
    console_log "✅ MongoDB: OK";;
    console_log "🎉 Sistema saludable";;
    mret 0 in
  match cuerpo [] with
  | (t, inr code) => (t, code)
  | (t, inl err) =>
      ((t ++ [ConsoleError "❌ Error en verificación de salud:" (mensaje err)])%list, 1)
  end.

(** ** Authentication middleware *)

(** [s.split(' ')] *)
Fixpoint split_espacio (s : string) : list string :=
  match s with
  | EmptyString => [EmptyString]
  | String c resto =>
      if Ascii.eqb c " " then EmptyString :: split_espacio resto
      else match split_espacio resto with
           | palabra :: palabras => String c palabra :: palabras
           | [] => [String c EmptyString]
           end
  end.

(** [enum: ['admin', 'gestor', 'analista']] *)
Inductive Rol : Type := admin | gestor | analista.

(** The payload of a token: [{ id, email, rol }]. *)
Record Sesion : Type := {
  sesion_id : nat;
  sesion_email : string;
  sesion_rol : Rol
}.

(** The token library and its secret: [jwt.sign(payload, secret, ...)]
    gives a token, [jwt.verify(token, secret, ...)] its payload or an
    error. *)
Record JWT : Type := {
  JWT_SECRET : option string;
  jwt_sign : Sesion -> string -> string;
  jwt_verify : string -> string -> option Sesion
}.

(** [process.env.JWT_SECRET || 'secret_key'] *)
Definition secreto (j : JWT) : string := o_bien (JWT_SECRET j) "secret_key".

(** What the middleware does with the request: it answers with a bare
    status, or it calls [next()] with [req.user] set. *)
Inductive Paso : Type :=
| SendStatus (code : Z)
| Next (user : Sesion).

(** [authenticateToken], on the header [authorization] of the request. *)
Definition authenticateToken (j : JWT) (authHeader : option string) : Paso :=
  let token :=
    match authHeader with
    | None => None
    | Some h => if String.eqb h EmptyString then Some h else split_espacio h !! 1%nat
    end in
  match token with
  | None => SendStatus 401
  | Some token =>
      match jwt_verify j token (secreto j) with
      | None => SendStatus 403
      | Some user => Next user
      end
  end.

(** A text without a space. *)
Fixpoint sin_espacio (s : string) : bool :=
  match s with
  | EmptyString => true
  | String c resto => negb (Ascii.eqb c " ") && sin_espacio resto
  end.

(** ** Users and login *)

(** A user document.  [password] holds the hash. *)
Record Usuario : Type := {
  usuario_nombre : string;
  usuario_email : string;
  usuario_password : string;
  usuario_rol : Rol;
  usuario_ultimoAcceso : option Z;
  usuario_activo : bool
}.

(** [usuario.ultimoAcceso = new Date()] *)
Definition con_ultimoAcceso (ahora : Z) (u : Usuario) : Usuario :=
  {| usuario_nombre := usuario_nombre u; usuario_email := usuario_email u;
     usuario_password := usuario_password u; usuario_rol := usuario_rol u;
     usuario_ultimoAcceso := Some ahora; usuario_activo := usuario_activo u |}.

(** [bcrypt.hash(data, 10)] and [bcrypt.compare(data, hash)] *)
Record Bcrypt : Type := {
  bcrypt_hash : string -> string;
  bcrypt_compare : string -> string -> bool
}.

(** [Model.findOne(filter)]: the first document that passes the filter, with
    its [_id]. *)
Fixpoint findOne_desde {A} (filtro : A -> bool) (i : nat) (docs : list A)
    : option (nat * A) :=
  match docs with
  | [] => None
  | x :: resto => if filtro x then Some (i, x) else findOne_desde filtro (S i) resto
  end.

(** [Usuario.findOne({ email, activo: true })] *)
Definition Usuario_findOne_activo (email : string) (usuarios : list Usuario)
    : option (nat * Usuario) :=
  findOne_desde
    (fun u => String.eqb (usuario_email u) email && Bool.eqb (usuario_activo u) true)
    0 usuarios.

(** [Usuario.findOne({ email })] *)
Definition Usuario_findOne (email : string) (usuarios : list Usuario)
    : option (nat * Usuario) :=
  findOne_desde (fun u => String.eqb (usuario_email u) email) 0 usuarios.

(** [usuario.save()] on a stored user. *)
Definition Usuario_save (rechaza : nat -> option string) (_id : nat) (u : Usuario)
    : Efecto (list Usuario) unit :=
  match rechaza _id with
  | Some message => lanzar (ErrorAlmacen message)
  | None => modificar (fun us => <[_id := u]> us)
  end.

(** The insertion of a new user: the unique index on [email] rejects an
    address that a stored user has, active or not. *)
Definition Usuario_insertar (u : Usuario) : Efecto (list Usuario) nat :=
  fun us =>
    if existsb (fun x => String.eqb (usuario_email x) (usuario_email u)) us
    then (us, inl (ErrorAlmacen "E11000 duplicate key error"))
    else ((us ++ [u])%list, inr (length us)).

(** The body of the answers of the login handlers; [success] says whether
    the body carries that field. *)
Inductive CuerpoLogin : Type :=
| LoginError (error : string)
| LoginToken (success : bool) (token : string)
    (id : nat) (nombre email : string) (rol : Rol).

Record RespuestaLogin : Type := { login_status : Z; login_json : CuerpoLogin }.

(** POST /api/auth/login of the main server; [email] and [password] are the
    two fields of the body. *)
Definition login (j : JWT) (b : Bcrypt) (ahora : Z) (rechaza : nat -> option string)
    (email password : string) (usuarios : list Usuario)
    : list Usuario * RespuestaLogin :=
  let cuerpo : Efecto (list Usuario) RespuestaLogin :=
    usuario ← leer (Usuario_findOne_activo email);
    match usuario with
    | Some (_id, usuario) =>
        if negb (bcrypt_compare b password (usuario_password usuario)) then
          mret {| login_status := 401; login_json := LoginError "Credenciales inválidas" |}
        else
          let usuario := con_ultimoAcceso ahora usuario in
          Usuario_save rechaza _id usuario;;
          let token :=
            jwt_sign j {| sesion_id := _id; sesion_email := usuario_email usuario;
                          sesion_rol := usuario_rol usuario |} (secreto j) in
          mret {| login_status := 200;
                  login_json := LoginToken false token _id (usuario_nombre usuario)
                                  (usuario_email usuario) (usuario_rol usuario) |}
    | None =>
        mret {| login_status := 401; login_json := LoginError "Credenciales inválidas" |}
    end in
  match cuerpo usuarios with
  | (us, inr respuesta) => (us, respuesta)
  | (us, inl err) => (us, {| login_status := 500; login_json := LoginError (mensaje err) |})
  end.

(** [!v] on a field of the body: missing and empty are both falsy. *)
Definition falsy (v : option string) : bool :=
  match v with
  | None => true
  | Some s => String.eqb s EmptyString
  end.

(** The account the simplified server creates on a login with the address
    of the administrator. *)
Definition administrador (b : Bcrypt) : Usuario :=
  {| usuario_nombre := "Administrador"; usuario_email := "admin@cobranza.com";
     usuario_password := bcrypt_hash b "admin123"; usuario_rol := admin;
     usuario_ultimoAcceso := None; usuario_activo := true |}.

(** POST /api/auth/login of the simplified server.  [ultimoAcceso] is not a
    path of its user schema, so the assignment changes no stored field and
    the save that follows writes nothing.  The store is taken to answer
    every query; the one rejection it can give is that of the unique index
    on [email]. *)
Definition login_simple (j : JWT) (b : Bcrypt) (email password : option string)
    (usuarios : list Usuario) : list Usuario * RespuestaLogin :=
  if falsy email || falsy password then
    (usuarios, {| login_status := 400;
                  login_json := LoginError "Email y password son requeridos" |})
  else
    let email := default EmptyString email in
    let password := default EmptyString password in
    let cuerpo : Efecto (list Usuario) RespuestaLogin :=
      usuario ← leer (Usuario_findOne_activo email);
      usuario ←
        match usuario with
        | None =>
            if String.eqb email "admin@cobranza.com" then
              _id ← Usuario_insertar (administrador b);
              mret (Some (_id, administrador b))
            else mret None
        | Some encontrado => mret (Some encontrado)
        end;
      match usuario with
      | Some (_id, usuario) =>
          if negb (bcrypt_compare b password (usuario_password usuario)) then
            mret {| login_status := 401; login_json := LoginError "Credenciales inválidas" |}
          else
            let token :=
              jwt_sign j {| sesion_id := _id; sesion_email := usuario_email usuario;
                            sesion_rol := usuario_rol usuario |} (secreto j) in
            mret {| login_status := 200;
                    login_json := LoginToken true token _id (usuario_nombre usuario)
                                    (usuario_email usuario) (usuario_rol usuario) |}
      | None =>
          mret {| login_status := 401; login_json := LoginError "Credenciales inválidas" |}
      end in
    match cuerpo usuarios with
    | (us, inr respuesta) => (us, respuesta)
    | (us, inl err) => (us, {| login_status := 500; login_json := LoginError (mensaje err) |})
    end.

(** ** Sample data: POST /api/seed of the simplified server *)

(** The insertion of a new customer, under the unique index on [email]. *)
Definition Cliente_insertar (c : Cliente) : Efecto (list Cliente) unit :=
  fun cs =>
    if existsb (fun x => String.eqb (cliente_email x) (cliente_email c)) cs
    then (cs, inl (ErrorAlmacen "E11000 duplicate key error"))
    else ((cs ++ [c])%list, inr tt).

(** [clientesExample]; the field [empresa] of the two bodies is not one of
    the customer record. *)
Definition clientesExample : list Cliente :=
  [ {| cliente_nombre := "María García Rodríguez";
       cliente_email := "maria.garcia@email.com";
       cliente_telefono := "+50212345678";
       cliente_whatsapp := Some "+50212345678" |};
    {| cliente_nombre := "Carlos López Méndez";
       cliente_email := "carlos.lopez@empresa.com";
       cliente_telefono := "+50287654321";
       cliente_whatsapp := Some "+50287654321" |} ].

(** The two collections the seed handler writes. *)
Record Semillero : Type := {
  sem_usuarios : list Usuario;
  sem_clientes : list Cliente
}.

(** A computation on the users, run on the store of both collections. *)
Definition en_usuarios {A} (m : Efecto (list Usuario) A) : Efecto Semillero A :=
  fun s =>
    let '(us, r) := m (sem_usuarios s) in
    ({| sem_usuarios := us; sem_clientes := sem_clientes s |}, r).

Definition en_clientes {A} (m : Efecto (list Cliente) A) : Efecto Semillero A :=
  fun s =>
    let '(cs, r) := m (sem_clientes s) in
    ({| sem_usuarios := sem_usuarios s; sem_clientes := cs |}, r).

(** The body of the loop over [clientesExample]. *)
Definition sembrar_cliente (clienteData : Cliente) : Efecto Semillero unit :=
  existe ← leer (fun s =>
    findOne_desde (fun c => String.eqb (cliente_email c) (cliente_email clienteData))
      0 (sem_clientes s));
  match existe with
  | None => en_clientes (Cliente_insertar clienteData)
  | Some _ => mret tt
  end.

(** The handler of POST /api/seed: the store it leaves and its answer,
    status and message.  The store is taken to answer every query; the one
    rejection it can give is that of a unique index. *)
Definition seed (b : Bcrypt) (s : Semillero) : Semillero * (Z * string) :=
  let cuerpo : Efecto Semillero (Z * string) :=
    adminExists ← leer (fun s => Usuario_findOne "admin@cobranza.com" (sem_usuarios s));
    match adminExists with
    | None =>
        en_usuarios
          (Usuario_insertar
             {| usuario_nombre := "Administrador Principal";
                usuario_email := "admin@cobranza.com";
                usuario_password := bcrypt_hash b "admin123"; usuario_rol := admin;
                usuario_ultimoAcceso := None; usuario_activo := true |});;
        mret tt
    | Some _ => mret tt
    end;;
    para_cada sembrar_cliente clientesExample;;
    mret (200, "Datos de ejemplo creados exitosamente") in
  match cuerpo s with
  | (s', inr respuesta) => (s', respuesta)
  | (s', inl err) => (s', (500, mensaje err))
  end.

(** ** Listing of templates: GET /api/plantillas *)

(** The filter [{ activa: true }] with [tipo] and [tono] added when the
    parameter of the query is truthy. *)
Definition listada (tipo tono : option string) (p : Plantilla) : bool :=
  Bool.eqb (plantilla_activa p) true
  && (if falsy tipo then true
      else String.eqb (nombre_canal (plantilla_tipo p)) (default EmptyString tipo))
  && (if falsy tono then true
      else String.eqb (nombre_tono (plantilla_tono p)) (default EmptyString tono)).

(** The order of [{ diasMora: 1 }]. *)
Definition por_diasMora (p q : Plantilla) : Prop :=
  plantilla_diasMora p <= plantilla_diasMora q.

Global Instance por_diasMora_dec : RelDecision por_diasMora.
Proof. intros p q. unfold por_diasMora. apply _. Defined.

(** [Plantilla.find(query).sort({ diasMora: 1 })] *)
Definition listar_plantillas (tipo tono : option string) (plantillas : list Plantilla)
    : list Plantilla :=
  merge_sort por_diasMora (List.filter (listada tipo tono) plantillas).

(** What inserting a document only when none passes [filtro] leaves of a
    collection; the seed handler is proved below to do this three times. *)
Definition asegurar {A} (filtro : A -> bool) (x : A) (docs : list A) : list A :=
  if existsb filtro docs then docs else (docs ++ [x])%list.

(** The store the seed handler leaves. *)
Definition sembrado (b : Bcrypt) (s : Semillero) : Semillero :=
  {| sem_usuarios :=
       asegurar (fun u => String.eqb (usuario_email u) "admin@cobranza.com")
         {| usuario_nombre := "Administrador Principal";
            usuario_email := "admin@cobranza.com";
            usuario_password := bcrypt_hash b "admin123"; usuario_rol := admin;
            usuario_ultimoAcceso := None; usuario_activo := true |}
         (sem_usuarios s);
     sem_clientes :=
       fold_left
         (fun cs c => asegurar (fun x => String.eqb (cliente_email x) (cliente_email c)) c cs)
         clientesExample (sem_clientes s) |}.

(** A text without a dollar sign. *)
Fixpoint sin_dolar (s : string) : bool :=
  match s with
  | EmptyString => true
  | String c resto => negb (Ascii.eqb c "$") && sin_dolar resto
  end.

(** * Theorems *)

Local Open Scope list_scope.

(** ** The effect monad *)

Lemma ligar_inr {S A B} (m : Efecto S A) (k : A -> Efecto S B) s s' a :
  m s = (s', inr a) -> (m ≫= k) s = k a s'.
Proof. intros H. unfold mbind, efecto_bind, ligar. by rewrite H. Qed.

Lemma ligar_inl {S A B} (m : Efecto S A) (k : A -> Efecto S B) s s' e :
  m s = (s', inl e) -> (m ≫= k) s = (s', inl e).
Proof. intros H. unfold mbind, efecto_bind, ligar. by rewrite H. Qed.

(** ** The scheduled job *)

Lemma paso_barrido_toca hoy rechaza i d ds :
  deuda_estado d <> pagada ->
  paso_barrido hoy rechaza (i, d) ds =
    if toca hoy d && rechaza i then (ds, inl (ErrorAlmacen "findByIdAndUpdate"))
    else if toca hoy d
         then (alter (con_mora (dias_entre hoy (deuda_fechaVencimiento d))
                        (estado_por_dias (dias_entre hoy (deuda_fechaVencimiento d)))) i ds,
               inr tt)
         else (ds, inr tt).
Proof.
  intros Hd. unfold paso_barrido, toca, findByIdAndUpdate.
  rewrite bool_decide_eq_true_2 by done. simpl.
  destruct (hoy >? deuda_fechaVencimiento d); simpl; [|done].
  by destruct (rechaza i).
Qed.

Lemma reclasificar_pagada hoy d : deuda_estado d = pagada -> reclasificar hoy d = d.
Proof.
  intros H. unfold reclasificar, toca.
  rewrite bool_decide_eq_false_2; [done|]. by intros Hn.
Qed.

Lemma pasada_bucle hoy rechaza ds : forall pre,
  para_cada (paso_barrido hoy rechaza)
    (filter (fun p => deuda_estado p.2 <> pagada)
       (imap (fun j d => ((length pre + j)%nat, d)) ds))
    (pre ++ ds)
  = (pre ++ (pasada hoy rechaza (length pre) ds).1,
     match (pasada hoy rechaza (length pre) ds).2 with
     | None => inr tt
     | Some e => inl e
     end).
Proof.
  induction ds as [|d ds IH]; intros pre.
  - done.
  - assert (Hsig' : forall d', filter (fun p : nat * Deuda => deuda_estado p.2 <> pagada)
               (imap ((fun j d => ((length pre + j)%nat, d)) ∘ S) ds)
             = filter (fun p : nat * Deuda => deuda_estado p.2 <> pagada)
               (imap (fun j x => ((length (pre ++ [d']) + j)%nat, x)) ds)).
    { intros d'. f_equal. apply imap_ext. intros j x _. simpl. rewrite length_app. simpl.
      f_equal. lia. }
    rewrite imap_cons, filter_cons. simpl pasada.
    rewrite Nat.add_0_r.
    destruct (decide (deuda_estado (length pre, d).2 <> pagada)) as [Hd|Hd]; simpl in Hd.
    + simpl para_cada.
      pose proof (paso_barrido_toca hoy rechaza (length pre) d (pre ++ d :: ds) Hd) as Hp.
      destruct (toca hoy d) eqn:Ht; simpl in Hp |- *.
      * destruct (rechaza (length pre)) eqn:Hr; simpl in Hp |- *.
        { by rewrite (ligar_inl _ _ _ _ _ Hp). }
        rewrite (ligar_inr _ _ _ _ _ Hp).
        replace (alter _ (length pre) (pre ++ d :: ds))
          with ((pre ++ [reclasificar hoy d]) ++ ds).
        2:{ rewrite <- (Nat.add_0_r (length pre)) at 1. rewrite alter_app_r.
            simpl. unfold reclasificar. rewrite Ht. by rewrite <- app_assoc. }
        rewrite (Hsig' (reclasificar hoy d)), IH.
        rewrite length_app. simpl. rewrite Nat.add_1_r, <- app_assoc. done.
      * rewrite (ligar_inr _ _ _ _ _ Hp).
        replace (pre ++ d :: ds) with ((pre ++ [d]) ++ ds) by (by rewrite <- app_assoc).
        rewrite (Hsig' d), IH. rewrite length_app. simpl.
        rewrite Nat.add_1_r, <- app_assoc. unfold reclasificar. by rewrite Ht.
    + assert (Hpag : deuda_estado d = pagada) by (by destruct (decide (deuda_estado d = pagada))).
      assert (Ht : toca hoy d = false).
      { unfold toca. rewrite bool_decide_eq_false_2; [done|]. by intros Hn. }
      rewrite Ht. simpl.
      replace (pre ++ d :: ds) with ((pre ++ [d]) ++ ds) by (by rewrite <- app_assoc).
      rewrite (Hsig' d), IH. rewrite length_app. simpl.
      rewrite Nat.add_1_r, <- app_assoc. by rewrite reclasificar_pagada.
Qed.

(** The job computes the single pass. *)
Lemma actualizarDiasMora_pasada hoy rechaza deudas :
  actualizarDiasMora hoy rechaza deudas =
    ((pasada hoy rechaza 0 deudas).1, registro_de (pasada hoy rechaza 0 deudas).2).
Proof.
  assert (H : para_cada (paso_barrido hoy rechaza) (find_no_pagadas deudas) deudas
              = ((pasada hoy rechaza 0 deudas).1,
                 match (pasada hoy rechaza 0 deudas).2 with
                 | None => inr tt
                 | Some e => inl e
                 end))
    by exact (pasada_bucle hoy rechaza deudas []).
  unfold actualizarDiasMora, mbind, efecto_bind, ligar, leer.
  rewrite H. by destruct (pasada hoy rechaza 0 deudas).2.
Qed.

Lemma estado_por_dias_no_pagada n : estado_por_dias n <> pagada.
Proof. unfold estado_por_dias. by repeat case_match. Qed.

Lemma toca_reclasificar hoy d : toca hoy (reclasificar hoy d) = toca hoy d.
Proof.
  unfold reclasificar. destruct (toca hoy d) eqn:Ht; [|done].
  unfold toca in *. simpl. apply andb_true_iff in Ht as [_ ->].
  rewrite bool_decide_eq_true_2; [done|]. apply estado_por_dias_no_pagada.
Qed.

Lemma reclasificar_idempotente hoy d :
  reclasificar hoy (reclasificar hoy d) = reclasificar hoy d.
Proof.
  unfold reclasificar at 1. rewrite toca_reclasificar.
  unfold reclasificar. by destruct (toca hoy d).
Qed.


Lemma clasificar_alta_idempotente hoy d :
  clasificar_alta hoy (clasificar_alta hoy d) = clasificar_alta hoy d.
Proof.
  unfold clasificar_alta. destruct (hoy >? deuda_fechaVencimiento d) eqn:H; simpl.
  - by rewrite H.
  - by rewrite H.
Qed.

Lemma pasada_idempotente hoy rechaza ds : forall i,
  pasada hoy rechaza i (pasada hoy rechaza i ds).1 = pasada hoy rechaza i ds.
Proof.
  induction ds as [|d ds IH]; intros i; [done|]. simpl.
  destruct (toca hoy d && rechaza i) eqn:Hc; simpl.
  - by rewrite Hc.
  - rewrite toca_reclasificar, Hc, reclasificar_idempotente. by rewrite IH.
Qed.

Lemma pasada_sin_rechazos hoy rechaza ds : forall i,
  (forall j, rechaza j = false) ->
  pasada hoy rechaza i ds = (reclasificar hoy <$> ds, None).
Proof.
  induction ds as [|d ds IH]; intros i Hr; [done|]. simpl.
  rewrite Hr, andb_false_r, IH by done. done.
Qed.

(** The pass rewrites the debts before the first rejected write and leaves
    the rest of the store as it was. *)
Lemma pasada_detiene hoy rechaza ds : forall i k d,
  ds !! k = Some d ->
  toca hoy d = true ->
  rechaza (i + k)%nat = true ->
  (forall j d', (j < k)%nat -> ds !! j = Some d' -> toca hoy d' = true ->
                rechaza (i + j)%nat = false) ->
  pasada hoy rechaza i ds =
    ((reclasificar hoy <$> take k ds) ++ drop k ds,
     Some (ErrorAlmacen "findByIdAndUpdate")).
Proof.
  induction ds as [|x ds IH]; intros i k d Hk Ht Hr Hprev; [done|].
  destruct k as [|k]; simpl in *.
  - injection Hk as ->. rewrite Nat.add_0_r in Hr. by rewrite Ht, Hr.
  - assert (Hx : toca hoy x && rechaza i = false).
    { destruct (toca hoy x) eqn:Hx; [|done]. simpl.
      rewrite <- (Nat.add_0_r i). apply (Hprev 0%nat x); [lia|done|done]. }
    rewrite Hx. erewrite (IH (S i) k d); [done|done|done| |].
    + by replace (S i + k)%nat with (i + S k)%nat by lia.
    + intros j d' Hj Hd' Ht'.
      replace (S i + j)%nat with (i + S j)%nat by lia.
      apply (Hprev (S j) d'); [lia|done|done].
Qed.

(** Whatever the pass does, a position holds the debt it held or its
    reclassification. *)
Lemma pasada_lookup hoy rechaza ds : forall i k d,
  ds !! k = Some d ->
  (pasada hoy rechaza i ds).1 !! k = Some d
  \/ (pasada hoy rechaza i ds).1 !! k = Some (reclasificar hoy d).
Proof.
  induction ds as [|x ds IH]; intros i k d Hk; [done|]. simpl.
  destruct (toca hoy x && rechaza i); simpl.
  - by left.
  - destruct k as [|k]; simpl in *.
    + injection Hk as ->. by right.
    + by apply IH.
Qed.

(** A paid debt is left as it is by the job. *)
Lemma actualizarDiasMora_pagada hoy rechaza deudas i d :
  deudas !! i = Some d ->
  deuda_estado d = pagada ->
  (actualizarDiasMora hoy rechaza deudas).1 !! i = Some d.
Proof.
  intros Hi Hd. rewrite actualizarDiasMora_pasada. simpl.
  destruct (pasada_lookup hoy rechaza deudas 0 i d Hi) as [H|H]; [done|].
  by rewrite reclasificar_pagada in H.
Qed.

(** ** Arrears classification *)

(** The creation handler stores the classified document, at the end of the
    collection, and answers 201 with it; a rejected save leaves the store as
    it was and answers 400. *)
Lemma crear_deuda_guarda hoy rechaza deuda deudas :
  crear_deuda hoy rechaza deuda deudas =
    match rechaza (clasificar_alta hoy deuda) with
    | None => (deudas ++ [clasificar_alta hoy deuda],
               {| status := 201; json := CuerpoDeuda (clasificar_alta hoy deuda) |})
    | Some message => (deudas, {| status := 400; json := CuerpoError message |})
    end.
Proof. unfold crear_deuda. by destruct (rechaza _). Qed.




(** C2, at the failing input: the query of the job excludes only the paid
    debts, so a cancelled debt 45 days past its due date is rewritten to
    [mora_media] with 45 days in arrears. *)
Theorem C2_cancelada_reclasificada :
  let d := deuda_de 0 cancelada in
  let hoy := 45 * ms_por_dia in
  (actualizarDiasMora hoy (fun _ => false) [d]).1 = [con_mora 45 mora_media d].
Proof. done. Qed.

(** C8, the statement as written fails: with two overdue debts, when the
    write of the first is rejected the second is never written, although the
    store would have accepted it. *)
Lemma C8_contraejemplo :
  let d0 := deuda_de 0 pendiente in
  let d1 := deuda_de 0 pendiente in
  let hoy := 45 * ms_por_dia in
  let rechaza := fun i : nat => bool_decide (i = 0%nat) in
  rechaza 1%nat = false /\
  (actualizarDiasMora hoy rechaza [d0; d1]).1 !! 1%nat = Some d1 /\
  (actualizarDiasMora hoy (fun _ => false) [d0; d1]).1 !! 1%nat
    = Some (con_mora 45 mora_media d1).
Proof. repeat split; done. Qed.

(** C8 (amended): when the store rejects the write of a debt, the job stops
    there.  The debts before it have been rewritten, that debt and all the
    debts after it are left as they were, and the job ends by logging the
    error (it returns; nothing is thrown to the process). *)
Theorem C8_barrido_se_detiene (hoy : Z) (rechaza : nat -> bool)
    (deudas : list Deuda) (i : nat) (d : Deuda) :
  deudas !! i = Some d ->
  deuda_estado d <> pagada ->
  deuda_fechaVencimiento d < hoy ->
  rechaza i = true ->
  (forall j d', (j < i)%nat -> deudas !! j = Some d' ->
                deuda_estado d' <> pagada -> deuda_fechaVencimiento d' < hoy ->
                rechaza j = false) ->
  actualizarDiasMora hoy rechaza deudas =
    ((reclasificar hoy <$> take i deudas) ++ drop i deudas,
     RegistroError "Error actualizando días en mora:" (ErrorAlmacen "findByIdAndUpdate")).
Proof.
  intros Hi Hd Hv Hr Hprev. rewrite actualizarDiasMora_pasada.
  assert (Htoca : forall x, toca hoy x = true ->
            deuda_estado x <> pagada /\ deuda_fechaVencimiento x < hoy).
  { intros x Hx. unfold toca in Hx. apply andb_true_iff in Hx as [H1 H2].
    apply bool_decide_eq_true in H1. split; [done|]. by apply Z.gtb_lt in H2. }
  rewrite (pasada_detiene hoy rechaza deudas 0 i d); [done|done| |done|].
  - unfold toca. rewrite bool_decide_eq_true_2 by done. simpl. by apply Z.gtb_lt.
  - intros j d' Hj Hj' Ht. destruct (Htoca d' Ht). by apply (Hprev j d').
Qed.

Lemma C8_barrido_se_detiene_witness :
  actualizarDiasMora (45 * ms_por_dia) (fun i => bool_decide (i = 1%nat))
    [deuda_de 0 pendiente; deuda_de 0 mora_temprana; deuda_de 0 pendiente]
  = ([con_mora 45 mora_media (deuda_de 0 pendiente);
      deuda_de 0 mora_temprana; deuda_de 0 pendiente],
     RegistroError "Error actualizando días en mora:" (ErrorAlmacen "findByIdAndUpdate")).
Proof.
  apply (C8_barrido_se_detiene (45 * ms_por_dia) (fun i => bool_decide (i = 1%nat))
           [deuda_de 0 pendiente; deuda_de 0 mora_temprana; deuda_de 0 pendiente]
           1 (deuda_de 0 mora_temprana)).
  - reflexivity.
  - discriminate.
  - reflexivity.
  - reflexivity.
  - intros j d' Hj _ _ _. destruct j as [|j]; [reflexivity|lia].
Defined.

(** C9: classifying a second time with the same reference date changes
    nothing, in the creation handler and in the scheduled job (whatever
    writes the store rejects, the same in both runs). *)
Theorem C9_idempotencia (hoy : Z) (rechaza : nat -> bool)
    (deudas : list Deuda) (d : Deuda) :
  clasificar_alta hoy (clasificar_alta hoy d) = clasificar_alta hoy d /\
  actualizarDiasMora hoy rechaza (actualizarDiasMora hoy rechaza deudas).1
    = actualizarDiasMora hoy rechaza deudas.
Proof.
  split; [apply clasificar_alta_idempotente|].
  rewrite !actualizarDiasMora_pasada. simpl. by rewrite pasada_idempotente.
Qed.

(** ** Template selection *)

Lemma coincide_spec tipo tono dias p :
  coincide tipo tono dias p = true <->
  nombre_canal (plantilla_tipo p) = tipo /\
  nombre_tono (plantilla_tono p) = tono /\
  plantilla_diasMora p <= dias /\
  plantilla_activa p = true.
Proof.
  unfold coincide. rewrite !andb_true_iff, !String.eqb_eq, Z.leb_le.
  destruct (plantilla_activa p); simpl; intuition congruence.
Qed.

Lemma primera_mayor_Some ps p :
  primera_mayor ps = Some p ->
  In p ps /\ forall q, In q ps -> plantilla_diasMora q <= plantilla_diasMora p.
Proof.
  revert p. induction ps as [|x ps IH]; intros p H; [done|]. simpl in H.
  destruct (primera_mayor ps) as [q|] eqn:Hq.
  - destruct (IH q eq_refl) as [Hin Hmax].
    destruct (Z.ltb_spec (plantilla_diasMora x) (plantilla_diasMora q));
      injection H as <-.
    + split; [by right|]. intros y [<-|Hy]; [lia|by apply Hmax].
    + split; [by left|]. intros y [<-|Hy]; [lia|]. specialize (Hmax y Hy). lia.
  - injection H as <-. split; [by left|].
    intros y [<-|Hy]; [lia|]. destruct ps; [done|]. simpl in Hq.
    by destruct (primera_mayor ps); [case_match|].
Qed.

Lemma primera_mayor_None ps : primera_mayor ps = None -> ps = [].
Proof.
  destruct ps as [|x ps]; [done|]. simpl.
  by destruct (primera_mayor ps); [case_match|].
Qed.

Lemma findOne_Some tipo tono dias ps p :
  Plantilla_findOne tipo tono dias ps = Some p ->
  p ∈ ps /\ coincide tipo tono dias p = true /\
  forall q, q ∈ ps -> coincide tipo tono dias q = true ->
            plantilla_diasMora q <= plantilla_diasMora p.
Proof.
  intros H. apply primera_mayor_Some in H as [Hin Hmax].
  apply filter_In in Hin as [Hin Hc]. split; [by apply list_elem_of_In|].
  split; [done|]. intros q Hq Hcq. apply Hmax, filter_In.
  split; [by apply list_elem_of_In|done].
Qed.

Lemma findOne_None tipo tono dias ps :
  Plantilla_findOne tipo tono dias ps = None ->
  forall q, q ∈ ps -> coincide tipo tono dias q = false.
Proof.
  intros H q Hq. apply primera_mayor_None in H.
  destruct (coincide tipo tono dias q) eqn:Hc; [|done].
  assert (Hin : In q (List.filter (coincide tipo tono dias) ps))
    by (apply filter_In; split; [by apply list_elem_of_In|done]).
  by rewrite H in Hin.
Qed.

(** A template is found whenever one passes the filter. *)
Lemma findOne_existe tipo tono dias ps q :
  q ∈ ps -> coincide tipo tono dias q = true ->
  is_Some (Plantilla_findOne tipo tono dias ps).
Proof.
  intros Hq Hc. destruct (Plantilla_findOne tipo tono dias ps) eqn:H; [done|].
  by rewrite (findOne_None _ _ _ _ H q Hq) in Hc.
Qed.

(** C5: the template the dispatch handler selects is one of the catalog, is
    active, has the requested channel and tone and a threshold not above the
    days in arrears of the debt, and no template passing that filter has a
    larger threshold; when no template passes the filter, the handler answers
    404 with an error body and changes nothing. *)
Theorem C5_seleccion (env : Entorno) (req : Peticion) (m : Mundo)
    (cliente : Cliente) (deuda : Deuda) :
  bd_clientes m !! req_clienteId req = Some cliente ->
  bd_deudas m !! req_deudaId req = Some deuda ->
  match Plantilla_findOne (req_tipo req) (req_tono req) (deuda_diasMora deuda)
          (bd_plantillas m) with
  | Some p =>
      p ∈ bd_plantillas m /\
      plantilla_activa p = true /\
      nombre_canal (plantilla_tipo p) = req_tipo req /\
      nombre_tono (plantilla_tono p) = req_tono req /\
      plantilla_diasMora p <= deuda_diasMora deuda /\
      (forall q, q ∈ bd_plantillas m ->
         plantilla_activa q = true ->
         nombre_canal (plantilla_tipo q) = req_tipo req ->
         nombre_tono (plantilla_tono q) = req_tono req ->
         plantilla_diasMora q <= deuda_diasMora deuda ->
         plantilla_diasMora q <= plantilla_diasMora p)
  | None =>
      (forall q, q ∈ bd_plantillas m ->
         ~ (plantilla_activa q = true /\
            nombre_canal (plantilla_tipo q) = req_tipo req /\
            nombre_tono (plantilla_tono q) = req_tono req /\
            plantilla_diasMora q <= deuda_diasMora deuda)) /\
      enviar env req m =
        (m, Some {| status := 404;
                    json := CuerpoError "No se encontró plantilla apropiada" |})
  end.
Proof.
  intros Hc Hd.
  destruct (Plantilla_findOne _ _ _ _) as [p|] eqn:Hf.
  - apply findOne_Some in Hf as (Hin & Hp & Hmax).
    apply coincide_spec in Hp as (? & ? & ? & ?).
    repeat split; try done.
    intros q Hq ? ? ? ?. apply Hmax; [done|]. by apply coincide_spec.
  - split.
    + intros q Hq (? & ? & ? & ?).
      pose proof (findOne_None _ _ _ _ Hf q Hq) as Hn.
      assert (coincide (req_tipo req) (req_tono req) (deuda_diasMora deuda) q = true)
        by (by apply coincide_spec).
      congruence.
    + unfold enviar, mbind, efecto_bind, ligar, leer. rewrite Hc, Hd. simpl.
      by rewrite Hf.
Qed.

Lemma C5_seleccion_witness :
  (exists p,
     Plantilla_findOne "email" "formal" 45 catalogo = Some p /\
     plantilla_diasMora p = 30 /\
     forall q, q ∈ catalogo -> plantilla_diasMora q <= 45 ->
               plantilla_diasMora q <= plantilla_diasMora p) /\
  enviar (entorno_ejemplo None) (peticion "legal") mundo_ejemplo =
    (mundo_ejemplo,
     Some {| status := 404; json := CuerpoError "No se encontró plantilla apropiada" |}).
Proof.
  split.
  - pose proof (C5_seleccion (entorno_ejemplo None) (peticion "formal") mundo_ejemplo
                  cliente_ana deuda_45 eq_refl eq_refl) as H.
    destruct (Plantilla_findOne (req_tipo (peticion "formal")) (req_tono (peticion "formal"))
                (deuda_diasMora deuda_45) (bd_plantillas mundo_ejemplo)) as [p|] eqn:Hp.
    + exists p. split; [exact Hp|]. split.
      * injection Hp as <-. reflexivity.
      * destruct H as (_ & _ & _ & _ & _ & Hmax). intros q Hq Hle.
        apply Hmax; [exact Hq| | | |exact Hle];
          apply list_elem_of_In in Hq; simpl in Hq;
          destruct Hq as [<-|[<-|[<-|[]]]]; reflexivity.
    + discriminate Hp.
  - pose proof (C5_seleccion (entorno_ejemplo None) (peticion "legal") mundo_ejemplo
                  cliente_ana deuda_45 eq_refl eq_refl) as H.
    destruct (Plantilla_findOne (req_tipo (peticion "legal")) (req_tono (peticion "legal"))
                (deuda_diasMora deuda_45) (bd_plantillas mundo_ejemplo)) as [p|] eqn:Hp.
    + discriminate Hp.
    + exact (proj2 H).
Defined.

(** ** Dispatch *)

Lemma incrementos_app t u : incrementos (t ++ u) = (incrementos t + incrementos u)%nat.
Proof. unfold incrementos. by rewrite List.filter_app, length_app. Qed.

Lemma escribir_fila_nueva c cs : escribir_fila (length cs) c cs = cs ++ [c].
Proof. unfold escribir_fila. case_decide; [lia|done]. Qed.


(** Runs the handler on a symbolic world: one case for each outcome of a
    capability it awaits. *)
Ltac desplegar :=
  unfold despachar, transportar, Comunicacion_save, Campania_findByIdAndUpdate,
    intentar, modificar, lanzar, leer, mbind, mret, efecto_bind, efecto_ret,
    ligar, devolver;
  cbn -[append contenido_de escribir_fila incrementos interpolar].

Ltac por_casos :=
  repeat match goal with
    | |- context [match transporte_rechaza ?e ?x with _ => _ end] =>
        destruct (transporte_rechaza e x) eqn:?
    | |- context [match save_rechaza ?e ?x with _ => _ end] =>
        destruct (save_rechaza e x) eqn:?
    | |- context [match inc_rechaza ?e ?x with _ => _ end] =>
        destruct (inc_rechaza e x) eqn:?
    | |- context [match req_campaniaId ?r with _ => _ end] =>
        destruct (req_campaniaId r) eqn:?
    | _ => progress cbn -[append contenido_de escribir_fila incrementos interpolar]
    end.

Lemma enviar_canal tipo tono dias ps p :
  Plantilla_findOne tipo tono dias ps = Some p ->
  tipo = nombre_canal (plantilla_tipo p).
Proof.
  intros H. apply findOne_Some in H as (_ & H & _).
  by apply coincide_spec in H as (-> & _).
Qed.



(** C3, the statement as written fails: after a dispatch with a campaign
    reference whose provider call is rejected, the communication is stored
    with the state [error] and a 500 response carries the error, but the
    [enviados] counter of the campaign is still 0, not 1. *)
Lemma C3_contraejemplo :
  let env := entorno_ejemplo (Some "ECONNREFUSED") in
  let r := enviar env (peticion "formal") mundo_ejemplo in
  com_estado <$> bd_comunicaciones r.1 = [error] /\
  r.2 = Some {| status := 500;
                json := CuerpoErrorDetalle "Error al enviar comunicación" "ECONNREFUSED" |} /\
  (enviados ∘ campania_metricas) <$> bd_campanias mundo_ejemplo = [0] /\
  (enviados ∘ campania_metricas) <$> bd_campanias r.1 = [0] /\
  (entregados ∘ campania_metricas) <$> bd_campanias r.1 = [0].
Proof. repeat split; reflexivity. Qed.

(** C3 (amended): when the provider call of a dispatch with a campaign
    reference is rejected and the store accepts the write of the
    communication, exactly that communication is stored, with the state
    [error]; no counter of any campaign changes ([enviados] and [entregados]
    stay as they were) and no increment call is made; the caller gets a 500
    response whose body carries the message of the transport error. *)
Theorem C3_fallo_transporte (env : Entorno) (req : Peticion) (m : Mundo)
    (cliente : Cliente) (deuda : Deuda) (p : Plantilla) (campaniaId : nat)
    (e : Excepcion) :
  bd_clientes m !! req_clienteId req = Some cliente ->
  bd_deudas m !! req_deudaId req = Some deuda ->
  Plantilla_findOne (req_tipo req) (req_tono req) (deuda_diasMora deuda)
    (bd_plantillas m) = Some p ->
  req_campaniaId req = Some campaniaId ->
  (despachar env (req_tipo req) (contenido_de env p cliente deuda) cliente deuda m).2
    = inl e ->
  (forall c, save_rechaza env c = None) ->
  let r := enviar env req m in
  bd_comunicaciones r.1 =
    bd_comunicaciones m ++
      [{| com_clienteId := req_clienteId req; com_deudaId := req_deudaId req;
          com_tipo := req_tipo req;
          com_contenido := contenido_de env p cliente deuda;
          com_tono := req_tono req; com_estado := error;
          com_campaniaId := Some campaniaId |}] /\
  bd_campanias r.1 = bd_campanias m /\
  incrementos (traza r.1) = incrementos (traza m) /\
  r.2 = Some {| status := 500;
                json := CuerpoErrorDetalle "Error al enviar comunicación" (mensaje e) |}.
Proof.
  intros Hc Hd Hf Hcamp Hdesp Hsave.
  pose proof (enviar_canal _ _ _ _ _ Hf) as Htipo.
  unfold enviar. desplegar. rewrite Hc, Hd. desplegar. rewrite Hf, Hcamp.
  revert Hdesp. rewrite Htipo.
  destruct (plantilla_tipo p); desplegar; por_casos; intros Hdesp;
    try discriminate Hdesp; try congruence;
    injection Hdesp as <-;
    rewrite ?escribir_fila_nueva, ?incrementos_app; cbn;
    (repeat split; try done; lia).
Qed.

Lemma C3_fallo_transporte_witness :
  let r := enviar (entorno_ejemplo (Some "ECONNREFUSED")) (peticion "formal") mundo_ejemplo in
  bd_campanias r.1 = bd_campanias mundo_ejemplo /\
  r.2 = Some {| status := 500;
                json := CuerpoErrorDetalle "Error al enviar comunicación" "ECONNREFUSED" |}.
Proof.
  pose proof (C3_fallo_transporte (entorno_ejemplo (Some "ECONNREFUSED"))
                (peticion "formal") mundo_ejemplo cliente_ana deuda_45
                (plantilla_formal 30
                   "Estimado {nombre}, su saldo de {monto} tiene {dias_mora} días de mora.")
                0%nat (ErrorTransporte "ECONNREFUSED")
                eq_refl eq_refl eq_refl eq_refl eq_refl (fun _ => eq_refl))
    as (_ & Hcamp & _ & Hresp).
  split; [exact Hcamp|exact Hresp].
Defined.

(** ** Rendering *)

Lemma substring_prefijo a r :
  String.substring 0 (String.length a) (a ++ r)%string = a.
Proof.
  induction a as [|c a IH]; simpl.
  - by destruct r.
  - by rewrite IH.
Qed.

Lemma substring_salto a n k r :
  String.substring (String.length a + n) k (a ++ r)%string = String.substring n k r.
Proof. induction a as [|c a IH]; simpl; [done|apply IH]. Qed.

Lemma substring_todo r : String.substring 0 (String.length r) r = r.
Proof. induction r as [|c r IH]; simpl; [done|by rewrite IH]. Qed.

Lemma length_append a b :
  String.length (a ++ b)%string = (String.length a + String.length b)%nat.
Proof. induction a as [|c a IH]; simpl; [done|by rewrite IH]. Qed.

(** [replace] with a string pattern rewrites the first occurrence and
    nothing after it: what follows, [b], is kept as it is even when it holds
    the pattern again. *)
Lemma String_replace_primera a pattern b replacement :
  String.index 0 pattern (a ++ pattern ++ b)%string = Some (String.length a) ->
  String_replace (a ++ pattern ++ b)%string pattern replacement =
    (a ++ GetSubstitution pattern a b replacement ++ b)%string.
Proof.
  intros H. unfold String_replace. rewrite H.
  rewrite substring_prefijo, substring_salto, !length_append.
  replace (String.length a + (String.length pattern + String.length b)
           - (String.length a + String.length pattern))%nat
    with (String.length b) by lia.
  assert (E : String.substring (String.length pattern) (String.length b)
                (pattern ++ b)%string = b).
  { rewrite <- (Nat.add_0_r (String.length pattern)).
    by rewrite substring_salto, substring_todo. }
  by rewrite E.
Qed.

(** A text without the pattern is returned as it is. *)
Lemma String_replace_ausente str pattern replacement :
  String.index 0 pattern str = None ->
  String_replace str pattern replacement = str.
Proof. intros H. unfold String_replace. by rewrite H. Qed.

(** Whatever the customer is called, a second [{nombre}] stays in the text. *)
Lemma String_replace_segunda nombre :
  String_replace "{nombre}, {nombre}" "{nombre}" nombre =
    (GetSubstitution "{nombre}" EmptyString ", {nombre}" nombre ++ ", {nombre}")%string.
Proof.
  apply (String_replace_primera EmptyString "{nombre}" ", {nombre}" nombre).
  reflexivity.
Qed.

(** C4, at the failing input: in a template that names [{nombre}] twice, the
    rendered content still holds the second [{nombre}], though the customer
    name is bound; the other placeholders, which occur once, are replaced. *)
Theorem C4_solo_primera_ocurrencia :
  contenido_de (entorno_ejemplo None)
    (plantilla_formal 0 "Hola {nombre}. {nombre}, su saldo es {monto} ({dias_mora} días).")
    cliente_ana deuda_45
  = "Hola Ana. {nombre}, su saldo es $1500 (45 días).".
Proof. reflexivity. Qed.

(** ** Campaign comparison *)

(** [centesimas] is [toFixed]'s choice of [n] for a Number [m * 2^(-k)]:
    [n - 1/2 <= 100 * m / 2^k < n + 1/2], stated without fractions. *)
Lemma centesimas_cercana m k :
  let n := centesimas m (Zneg k) in
  2 * n * 2 ^ Zpos k - 2 ^ Zpos k <= 200 * Zpos m < 2 * n * 2 ^ Zpos k + 2 ^ Zpos k.
Proof.
  simpl. unfold centesimas.
  assert (Hk : 0 < 2 ^ Zpos k) by (apply Z.pow_pos_nonneg; lia).
  replace (2 ^ (Zpos k + 1)) with (2 * 2 ^ Zpos k)
    by (rewrite Z.pow_add_r by lia; lia).
  pose proof (Z.div_mod (200 * Zpos m + 2 ^ Zpos k) (2 * 2 ^ Zpos k)).
  pose proof (Z.mod_pos_bound (200 * Zpos m + 2 ^ Zpos k) (2 * 2 ^ Zpos k)).
  nia.
Qed.

(** *** Integers as Numbers

    The conversion of an integer to binary64 keeps its sign and yields zero
    only for 0: rounding shifts the mantissa right by fewer bits than it
    has. *)

Lemma digits2_pos_cotas p :
  2 ^ (Zpos (digits2_pos p) - 1) <= Zpos p < 2 ^ Zpos (digits2_pos p).
Proof.
  induction p as [p IH|p IH|]; simpl digits2_pos.
  - rewrite Pos2Z.inj_succ.
    replace (Z.succ (Zpos (digits2_pos p)) - 1) with (Zpos (digits2_pos p) - 1 + 1) by lia.
    rewrite Z.pow_succ_r by lia. rewrite Z.pow_add_r by lia. lia.
  - rewrite Pos2Z.inj_succ.
    replace (Z.succ (Zpos (digits2_pos p)) - 1) with (Zpos (digits2_pos p) - 1 + 1) by lia.
    rewrite Z.pow_succ_r by lia. rewrite Z.pow_add_r by lia. lia.
  - done.
Qed.

Lemma shr_1_m mrs : 0 <= shr_m mrs -> shr_m (shr_1 mrs) = shr_m mrs / 2.
Proof.
  destruct mrs as [m r s]. simpl. intros Hm.
  destruct m as [|[p|p|]|p]; simpl; try done; try lia.
  - rewrite Pos2Z.inj_xI. apply Z.div_unique with 1; lia.
  - rewrite Pos2Z.inj_xO. apply Z.div_unique with 0; lia.
Qed.

Lemma iter_shr_1_m n : forall mrs,
  0 <= shr_m mrs ->
  shr_m (SpecFloat.iter_pos shr_1 n mrs) = shr_m mrs / 2 ^ Zpos n.
Proof.
  induction n as [n IH|n IH|]; intros mrs Hm; simpl SpecFloat.iter_pos.
  - assert (H1 : 0 <= shr_m (shr_1 mrs)) by (rewrite shr_1_m by done; apply Z.div_pos; lia).
    assert (H2 : 0 <= shr_m (SpecFloat.iter_pos shr_1 n (shr_1 mrs)))
      by (rewrite IH by done; apply Z.div_pos; [done|apply Z.pow_pos_nonneg; lia]).
    rewrite IH, IH, shr_1_m by done.
    rewrite !Z.div_div by (try apply Z.pow_pos_nonneg; lia).
    f_equal. replace (Zpos n~1) with (Zpos n + Zpos n + 1) by lia.
    rewrite (Z.pow_add_r 2 (Zpos n + Zpos n) 1), (Z.pow_add_r 2 (Zpos n) (Zpos n)) by lia.
    ring.
  - assert (H2 : 0 <= shr_m (SpecFloat.iter_pos shr_1 n mrs))
      by (rewrite IH by done; apply Z.div_pos; [done|apply Z.pow_pos_nonneg; lia]).
    rewrite IH, IH by done.
    rewrite !Z.div_div by (try apply Z.pow_pos_nonneg; lia).
    f_equal. replace (Zpos n~0) with (Zpos n + Zpos n) by lia.
    rewrite Z.pow_add_r; [done|lia|lia].
  - rewrite shr_1_m by done. by rewrite Z.pow_1_r.
Qed.

Lemma shr_fexp_positivo m e l :
  0 < m -> -1073 <= e ->
  0 < shr_m (shr_fexp prec emax m e l).1 /\ e <= (shr_fexp prec emax m e l).2.
Proof.
  intros Hm He. unfold shr_fexp, shr.
  assert (Hrec : shr_m (shr_record_of_loc m l) = m) by (by destruct l as [|[]]).
  destruct m as [|p|p]; [lia| |lia]. simpl Zdigits2.
  pose proof (digits2_pos_cotas p) as [Hlo _].
  set (d := Zpos (digits2_pos p)) in *.
  assert (Hn : fexp prec emax (d + e) - e <= d - 1).
  { unfold fexp, emin, prec, emax. lia. }
  destruct (fexp prec emax (d + e) - e) as [|n|n] eqn:En; simpl; [lia| |lia].
  split; [|lia].
  rewrite iter_shr_1_m by (rewrite Hrec; lia). rewrite Hrec.
  apply Z.div_str_pos. split; [apply Z.pow_pos_nonneg; lia|].
  etrans; [|exact Hlo]. apply Z.pow_le_mono_r; lia.
Qed.

Lemma round_nearest_even_positivo m l : 0 < m -> 0 < round_nearest_even m l.
Proof.
  intros Hm. destruct l as [|[]]; simpl; try lia. destruct (Z.even m); lia.
Qed.

Lemma binary_round_aux_signo sx mx ex lx :
  0 < mx -> -1073 <= ex ->
  (exists m e, binary_round_aux prec emax sx mx ex lx = S754_finite sx m e)
  \/ binary_round_aux prec emax sx mx ex lx = S754_infinity sx.
Proof.
  intros Hm He. unfold binary_round_aux.
  destruct (shr_fexp_positivo mx ex lx Hm He) as [H1 H2].
  destruct (shr_fexp prec emax mx ex lx) as [mrs' e']. simpl in H1, H2.
  pose proof (round_nearest_even_positivo _ (loc_of_shr_record mrs') H1) as H3.
  destruct (shr_fexp_positivo _ e' loc_Exact H3 ltac:(lia)) as [H4 _].
  destruct (shr_fexp prec emax _ e' loc_Exact) as [mrs'' e'']. simpl in H4.
  destruct (shr_m mrs'') as [|m|m]; [lia| |lia].
  destruct (e'' <=? emax - prec); eauto.
Qed.

Lemma binary_round_signo sx p :
  (exists m e, binary_round prec emax sx p 0 = S754_finite sx m e)
  \/ binary_round prec emax sx p 0 = S754_infinity sx.
Proof.
  unfold binary_round.
  destruct (shl_align p 0 (fexp prec emax (Zpos (digits2_pos p) + 0))) as [mz ez] eqn:E.
  apply binary_round_aux_signo; [lia|].
  unfold shl_align in E.
  assert (-52 <= fexp prec emax (Zpos (digits2_pos p) + 0))
    by (unfold fexp, emin, prec, emax; lia).
  destruct (fexp prec emax (Zpos (digits2_pos p) + 0) - 0) eqn:En;
    injection E as _ <-; lia.
Qed.

(** The Number of an integer has the sign of the integer, and is zero only
    for 0. *)
Lemma Number_de_Z_signo z :
  match z with
  | Z0 => Number_de_Z z = S754_zero false
  | Zpos _ => (exists m e, Number_de_Z z = S754_finite false m e)
              \/ Number_de_Z z = S754_infinity false
  | Zneg _ => (exists m e, Number_de_Z z = S754_finite true m e)
              \/ Number_de_Z z = S754_infinity true
  end.
Proof. destruct z; [done|apply binary_round_signo..]. Qed.

(** With nothing sent, the rate is the text NaN when the count is 0 too, and
    an infinity of the sign of the count otherwise. *)
Lemma tasa_sin_envios_signo ts cuenta :
  tasa ts cuenta 0 =
    if cuenta =? 0 then "NaN"%string
    else if 0 <? cuenta then "Infinity"%string else "-Infinity"%string.
Proof.
  unfold tasa. change (Number_de_Z 0) with (S754_zero false).
  change (Number_de_Z 100) with (S754_finite false 7036874417766400 (-46)).
  pose proof (Number_de_Z_signo cuenta) as H.
  destruct cuenta; [done| |]; by destruct H as [(m & e & ->)| ->].
Qed.

(** C6, at the failing input: for two campaigns to which nothing was sent
    yet (every counter at its default 0) the three rates of each are the text
    NaN, not 0. *)
Theorem C6_sin_envios (ts : spec_float -> string) :
  comparar ts [campania_nueva "A"; campania_nueva "B"] 0 1 =
    {| status := 200;
       json := CuerpoComparacion
         {| resumen_nombre := "A";
            resumen_metricas := campania_metricas (campania_nueva "A");
            resumen_tasaApertura := "NaN";
            resumen_tasaRespuesta := "NaN";
            resumen_tasaConversion := "NaN" |}
         {| resumen_nombre := "B";
            resumen_metricas := campania_metricas (campania_nueva "B");
            resumen_tasaApertura := "NaN";
            resumen_tasaRespuesta := "NaN";
            resumen_tasaConversion := "NaN" |} |}.
Proof. reflexivity. Qed.

(** With messages sent, the rates are two-decimal numerals. *)
Example tasa_un_tercio ts : tasa ts 1 3 = "33.33".
Proof. reflexivity. Qed.

Example tasa_un_octavo ts : tasa ts 1 8 = "12.50".
Proof. reflexivity. Qed.



(** * Further properties of the handlers *)

(** ** Dispatch *)

(** A dispatch for an unknown customer or an unknown debt answers 404 and
    does nothing else: no template is looked up, no provider is called and
    nothing is written. *)
Theorem enviar_no_encontrado (env : Entorno) (req : Peticion) (m : Mundo) :
  bd_clientes m !! req_clienteId req = None \/ bd_deudas m !! req_deudaId req = None ->
  enviar env req m =
    (m, Some {| status := 404; json := CuerpoError "Cliente o deuda no encontrada" |}).
Proof.
  intros H. unfold enviar. desplegar.
  destruct (bd_clientes m !! req_clienteId req), (bd_deudas m !! req_deudaId req);
    destruct H; done.
Qed.

Lemma enviar_no_encontrado_witness :
  enviar (entorno_ejemplo None)
    {| req_clienteId := 3; req_deudaId := 0; req_tipo := "email";
       req_tono := "formal"; req_campaniaId := None |} mundo_ejemplo =
    (mundo_ejemplo,
     Some {| status := 404; json := CuerpoError "Cliente o deuda no encontrada" |}).
Proof.
  apply (enviar_no_encontrado (entorno_ejemplo None)
           {| req_clienteId := 3; req_deudaId := 0; req_tipo := "email";
              req_tono := "formal"; req_campaniaId := None |} mundo_ejemplo).
  left. reflexivity.
Defined.

Lemma transportes_app t u : transportes (t ++ u) = (transportes t + transportes u)%nat.
Proof. unfold transportes. by rewrite List.filter_app, length_app. Qed.

(** A dispatch never touches the customers, the debts or the templates, never
    adds or removes a campaign, and only adds to the record of calls. *)
Theorem enviar_marco (env : Entorno) (req : Peticion) (m : Mundo) :
  let m' := (enviar env req m).1 in
  bd_clientes m' = bd_clientes m /\
  bd_deudas m' = bd_deudas m /\
  bd_plantillas m' = bd_plantillas m /\
  length (bd_campanias m') = length (bd_campanias m) /\
  exists nuevas, traza m' = traza m ++ nuevas.
Proof.
  unfold enviar. desplegar.
  destruct (bd_clientes m !! req_clienteId req) as [cliente|];
    [|by repeat split; exists []; rewrite app_nil_r].
  destruct (bd_deudas m !! req_deudaId req) as [deuda|];
    [|by repeat split; exists []; rewrite app_nil_r].
  desplegar.
  destruct (Plantilla_findOne _ _ _ _) as [p|];
    [|by repeat split; exists []; rewrite app_nil_r].
  desplegar.
  destruct (String.eqb (req_tipo req) "email");
    [|destruct (String.eqb (req_tipo req) "sms");
      [|destruct (String.eqb (req_tipo req) "whatsapp")]];
    desplegar; por_casos; rewrite ?length_alter;
    (repeat split; try done); rewrite <- ?app_assoc; eauto.
  by exists []; rewrite app_nil_r.
Qed.

(** The cases of the [switch] on the requested channel, whatever string it
    is. *)
Ltac por_canal req :=
  destruct (String.eqb (req_tipo req) "email");
    [|destruct (String.eqb (req_tipo req) "sms");
      [|destruct (String.eqb (req_tipo req) "whatsapp")]].

(** A dispatch without a campaign reference changes no campaign and makes no
    increment call, however it ends. *)
Theorem enviar_sin_campania (env : Entorno) (req : Peticion) (m : Mundo) :
  req_campaniaId req = None ->
  bd_campanias (enviar env req m).1 = bd_campanias m /\
  incrementos (traza (enviar env req m).1) = incrementos (traza m).
Proof.
  intros Hn. unfold enviar. desplegar. rewrite Hn.
  destruct (bd_clientes m !! req_clienteId req) as [cliente|]; [|done].
  destruct (bd_deudas m !! req_deudaId req) as [deuda|]; [|done].
  desplegar. destruct (Plantilla_findOne _ _ _ _) as [p|]; [|done].
  desplegar. por_canal req; desplegar; por_casos;
    rewrite ?incrementos_app; cbn; (split; [done|lia]).
Qed.

Lemma enviar_sin_campania_witness :
  bd_campanias
    (enviar (entorno_ejemplo None)
       {| req_clienteId := 0; req_deudaId := 0; req_tipo := "email";
          req_tono := "formal"; req_campaniaId := None |} mundo_ejemplo).1
  = bd_campanias mundo_ejemplo.
Proof.
  apply (enviar_sin_campania (entorno_ejemplo None)
           {| req_clienteId := 0; req_deudaId := 0; req_tipo := "email";
              req_tono := "formal"; req_campaniaId := None |} mundo_ejemplo).
  reflexivity.
Defined.



(** When the provider accepts the message and the store accepts the writes,
    the dispatch stores exactly one communication, in the state [entregado],
    adds 1 to [enviados] and to [entregados] of the campaign it names, leaves
    its other counters and every other campaign as they were, and answers 200
    with the communication. *)
Theorem enviar_entregado (env : Entorno) (req : Peticion) (m : Mundo)
    (cliente : Cliente) (deuda : Deuda) (p : Plantilla) (campaniaId : nat)
    (c : Campania) :
  bd_clientes m !! req_clienteId req = Some cliente ->
  bd_deudas m !! req_deudaId req = Some deuda ->
  Plantilla_findOne (req_tipo req) (req_tono req) (deuda_diasMora deuda)
    (bd_plantillas m) = Some p ->
  req_campaniaId req = Some campaniaId ->
  bd_campanias m !! campaniaId = Some c ->
  (despachar env (req_tipo req) (contenido_de env p cliente deuda) cliente deuda m).2
    = inr true ->
  (forall x, save_rechaza env x = None) ->
  inc_rechaza env campaniaId = None ->
  let r := enviar env req m in
  let com :=
    {| com_clienteId := req_clienteId req; com_deudaId := req_deudaId req;
       com_tipo := req_tipo req;
       com_contenido := contenido_de env p cliente deuda;
       com_tono := req_tono req; com_estado := entregado;
       com_campaniaId := Some campaniaId |} in
  bd_comunicaciones r.1 = bd_comunicaciones m ++ [com] /\
  (exists c', bd_campanias r.1 !! campaniaId = Some c' /\
     campania_nombre c' = campania_nombre c /\
     enviados (campania_metricas c') = enviados (campania_metricas c) + 1 /\
     entregados (campania_metricas c') = entregados (campania_metricas c) + 1 /\
     leidos (campania_metricas c') = leidos (campania_metricas c) /\
     respondidos (campania_metricas c') = respondidos (campania_metricas c) /\
     pagos (campania_metricas c') = pagos (campania_metricas c)) /\
  (forall j, j <> campaniaId -> bd_campanias r.1 !! j = bd_campanias m !! j) /\
  r.2 = Some {| status := 200; json := CuerpoExito com |}.
Proof.
  intros Hc Hd Hf Hcamp Hlook Hdesp Hsave Hinc.
  pose proof (enviar_canal _ _ _ _ _ Hf) as Htipo.
  unfold enviar. desplegar. rewrite Hc, Hd. desplegar. rewrite Hf, Hcamp.
  revert Hdesp. rewrite Htipo.
  destruct (plantilla_tipo p); desplegar; por_casos; intros Hdesp;
    try discriminate Hdesp; try congruence;
    rewrite ?escribir_fila_nueva; cbn;
    (split; [done|]); (split; [|split; [|done]]);
    try (intros j Hj; by rewrite list_lookup_alter_ne);
    (exists (inc_enviados_entregados c);
     rewrite list_lookup_alter_eq, Hlook; done).
Qed.

Lemma enviar_entregado_witness :
  let r := enviar (entorno_ejemplo None) (peticion "formal") mundo_ejemplo in
  (enviados ∘ campania_metricas) <$> bd_campanias r.1 = [1] /\
  (entregados ∘ campania_metricas) <$> bd_campanias r.1 = [1] /\
  com_estado <$> bd_comunicaciones r.1 = [entregado].
Proof.
  pose proof (enviar_entregado (entorno_ejemplo None) (peticion "formal") mundo_ejemplo
                cliente_ana deuda_45
                (plantilla_formal 30
                   "Estimado {nombre}, su saldo de {monto} tiene {dias_mora} días de mora.")
                0%nat (campania_nueva "A")
                eq_refl eq_refl eq_refl eq_refl eq_refl eq_refl
                (fun _ => eq_refl) eq_refl) as (Hcom & _ & _ & _).
  split; [reflexivity|]. split; [reflexivity|].
  rewrite Hcom. reflexivity.
Defined.

(** A campaign reference that names no stored campaign is not an error: the
    dispatch is answered 200, the communication is stored with that
    reference, and no campaign changes. *)
Theorem enviar_campania_inexistente (env : Entorno) (req : Peticion) (m : Mundo)
    (cliente : Cliente) (deuda : Deuda) (p : Plantilla) (campaniaId : nat) :
  bd_clientes m !! req_clienteId req = Some cliente ->
  bd_deudas m !! req_deudaId req = Some deuda ->
  Plantilla_findOne (req_tipo req) (req_tono req) (deuda_diasMora deuda)
    (bd_plantillas m) = Some p ->
  req_campaniaId req = Some campaniaId ->
  bd_campanias m !! campaniaId = None ->
  (despachar env (req_tipo req) (contenido_de env p cliente deuda) cliente deuda m).2
    = inr true ->
  (forall x, save_rechaza env x = None) ->
  inc_rechaza env campaniaId = None ->
  let r := enviar env req m in
  bd_campanias r.1 = bd_campanias m /\
  (exists com, bd_comunicaciones r.1 = bd_comunicaciones m ++ [com] /\
     com_campaniaId com = Some campaniaId /\
     r.2 = Some {| status := 200; json := CuerpoExito com |}).
Proof.
  intros Hc Hd Hf Hcamp Hlook Hdesp Hsave Hinc.
  pose proof (enviar_canal _ _ _ _ _ Hf) as Htipo.
  assert (Hge : forall f, alter f campaniaId (bd_campanias m) = bd_campanias m).
  { intros f. apply list_eq. intros j.
    destruct (decide (campaniaId = j)) as [<-|Hj].
    - by rewrite list_lookup_alter_eq, Hlook.
    - by rewrite list_lookup_alter_ne. }
  unfold enviar. desplegar. rewrite Hc, Hd. desplegar. rewrite Hf, Hcamp.
  revert Hdesp. rewrite Htipo.
  destruct (plantilla_tipo p); desplegar; por_casos; intros Hdesp;
    try discriminate Hdesp; try congruence;
    rewrite ?escribir_fila_nueva, ?Hge; cbn; (split; [done|]); eauto.
Qed.

Lemma enviar_campania_inexistente_witness :
  let req := {| req_clienteId := 0; req_deudaId := 0; req_tipo := "email";
                req_tono := "formal"; req_campaniaId := Some 9%nat |} in
  bd_campanias (enviar (entorno_ejemplo None) req mundo_ejemplo).1
  = bd_campanias mundo_ejemplo.
Proof.
  apply (enviar_campania_inexistente (entorno_ejemplo None)
           {| req_clienteId := 0; req_deudaId := 0; req_tipo := "email";
              req_tono := "formal"; req_campaniaId := Some 9%nat |}
           mundo_ejemplo cliente_ana deuda_45
           (plantilla_formal 30
              "Estimado {nombre}, su saldo de {monto} tiene {dias_mora} días de mora.")
           9%nat eq_refl eq_refl eq_refl eq_refl eq_refl eq_refl
           (fun _ => eq_refl) eq_refl).
Defined.



(** ** Template selection *)

(** As a debt ages the selection never steps back: with more days in arrears
    a template is still found, and its threshold is at least the one found
    before. *)
Theorem findOne_monotona (tipo tono : string) (dias dias' : Z)
    (ps : list Plantilla) (p : Plantilla) :
  dias <= dias' ->
  Plantilla_findOne tipo tono dias ps = Some p ->
  exists p', Plantilla_findOne tipo tono dias' ps = Some p' /\
             plantilla_diasMora p <= plantilla_diasMora p'.
Proof.
  intros Hle Hf. apply findOne_Some in Hf as (Hin & Hco & _).
  assert (Hco' : coincide tipo tono dias' p = true).
  { apply coincide_spec in Hco as (? & ? & ? & ?). apply coincide_spec.
    repeat split; try done. lia. }
  destruct (findOne_existe tipo tono dias' ps p Hin Hco') as [p' Hp'].
  exists p'. split; [done|].
  apply findOne_Some in Hp' as (_ & _ & Hmax). by apply Hmax.
Qed.

Lemma findOne_monotona_witness :
  exists p', Plantilla_findOne "email" "formal" 120 catalogo = Some p' /\
             30 <= plantilla_diasMora p'.
Proof.
  apply (findOne_monotona "email" "formal" 45 120 catalogo
           (plantilla_formal 30
              "Estimado {nombre}, su saldo de {monto} tiene {dias_mora} días de mora.")).
  - lia.
  - reflexivity.
Defined.

(** The threshold of the selected template does not depend on the order in
    which the store holds the catalog. *)
Theorem findOne_orden (tipo tono : string) (dias : Z) (ps ps' : list Plantilla) :
  ps ≡ₚ ps' ->
  plantilla_diasMora <$> Plantilla_findOne tipo tono dias ps
  = plantilla_diasMora <$> Plantilla_findOne tipo tono dias ps'.
Proof.
  intros Hperm.
  destruct (Plantilla_findOne tipo tono dias ps) as [p|] eqn:H1;
    destruct (Plantilla_findOne tipo tono dias ps') as [p'|] eqn:H2; simpl.
  - apply findOne_Some in H1 as (Hin & Hco & Hmax).
    apply findOne_Some in H2 as (Hin' & Hco' & Hmax').
    f_equal. apply Z.le_antisymm.
    + apply Hmax'; [by rewrite <- Hperm|done].
    + apply Hmax; [by rewrite Hperm|done].
  - apply findOne_Some in H1 as (Hin & Hco & _).
    rewrite (findOne_None _ _ _ _ H2 p) in Hco; [done|by rewrite <- Hperm].
  - apply findOne_Some in H2 as (Hin & Hco & _).
    rewrite (findOne_None _ _ _ _ H1 p') in Hco; [done|by rewrite Hperm].
  - done.
Qed.

Lemma findOne_orden_witness :
  plantilla_diasMora <$> Plantilla_findOne "email" "formal" 45 (reverse catalogo)
  = Some 30.
Proof.
  rewrite <- (findOne_orden "email" "formal" 45 catalogo (reverse catalogo)).
  - reflexivity.
  - symmetry. apply reverse_Permutation.
Defined.

(** A template that is inactive, of another channel or tone, or above the
    days in arrears of the debt plays no part: the selection is the one of
    the catalog without it. *)
Theorem findOne_ajena (tipo tono : string) (dias : Z)
    (ps1 ps2 : list Plantilla) (q : Plantilla) :
  coincide tipo tono dias q = false ->
  Plantilla_findOne tipo tono dias (ps1 ++ q :: ps2)
  = Plantilla_findOne tipo tono dias (ps1 ++ ps2).
Proof.
  intros Hq. unfold Plantilla_findOne.
  rewrite !List.filter_app. simpl. by rewrite Hq.
Qed.

Lemma findOne_ajena_witness :
  Plantilla_findOne "email" "formal" 45
    (plantilla_formal 0 "a" :: plantilla_formal 90 "b" :: [plantilla_formal 30 "c"])
  = Plantilla_findOne "email" "formal" 45
      (plantilla_formal 0 "a" :: [plantilla_formal 30 "c"]).
Proof.
  apply (findOne_ajena "email" "formal" 45 [plantilla_formal 0 "a"]
           [plantilla_formal 30 "c"] (plantilla_formal 90 "b")).
  reflexivity.
Defined.

(** ** The scheduled job and the creation of debts *)

Lemma reclasificar_campos hoy d :
  deuda_clienteId (reclasificar hoy d) = deuda_clienteId d /\
  deuda_monto (reclasificar hoy d) = deuda_monto d /\
  deuda_fechaVencimiento (reclasificar hoy d) = deuda_fechaVencimiento d /\
  deuda_facturaNumero (reclasificar hoy d) = deuda_facturaNumero d.
Proof. unfold reclasificar. by destruct (toca hoy d). Qed.

Lemma pasada_length hoy rechaza ds : forall i,
  length (pasada hoy rechaza i ds).1 = length ds.
Proof.
  induction ds as [|d ds IH]; intros i; [done|]. simpl.
  destruct (toca hoy d && rechaza i); simpl; [done|]. by rewrite IH.
Qed.

(** Whatever writes the store rejects, the job keeps every debt in its place
    and never changes its customer, its amount, its due date or its invoice
    number. *)
Theorem actualizarDiasMora_marco (hoy : Z) (rechaza : nat -> bool)
    (deudas : list Deuda) (i : nat) (d : Deuda) :
  deudas !! i = Some d ->
  length (actualizarDiasMora hoy rechaza deudas).1 = length deudas /\
  exists d', (actualizarDiasMora hoy rechaza deudas).1 !! i = Some d' /\
    deuda_clienteId d' = deuda_clienteId d /\
    deuda_monto d' = deuda_monto d /\
    deuda_fechaVencimiento d' = deuda_fechaVencimiento d /\
    deuda_facturaNumero d' = deuda_facturaNumero d.
Proof.
  intros Hi. rewrite actualizarDiasMora_pasada. simpl. split; [apply pasada_length|].
  destruct (pasada_lookup hoy rechaza deudas 0 i d Hi) as [H|H].
  - by exists d.
  - exists (reclasificar hoy d). split; [done|apply reclasificar_campos].
Qed.

Lemma actualizarDiasMora_marco_witness :
  length (actualizarDiasMora (45 * ms_por_dia) (fun _ => false)
            [deuda_de 0 pendiente; deuda_de 0 pagada]).1 = 2%nat.
Proof.
  apply (actualizarDiasMora_marco (45 * ms_por_dia) (fun _ => false)
           [deuda_de 0 pendiente; deuda_de 0 pagada] 0 (deuda_de 0 pendiente)).
  reflexivity.
Defined.

Lemma actualizarDiasMora_pagada_witness :
  (actualizarDiasMora (45 * ms_por_dia) (fun _ => false)
     [deuda_de 0 pendiente; deuda_de 0 pagada]).1 !! 1%nat = Some (deuda_de 0 pagada).
Proof.
  apply (actualizarDiasMora_pagada (45 * ms_por_dia) (fun _ => false)
           [deuda_de 0 pendiente; deuda_de 0 pagada] 1 (deuda_de 0 pagada)).
  - reflexivity.
  - reflexivity.
Defined.

Lemma reclasificar_absorbe hoy hoy' d :
  hoy <= hoy' -> reclasificar hoy' (reclasificar hoy d) = reclasificar hoy' d.
Proof.
  intros Hle. unfold reclasificar at 2. destruct (toca hoy d) eqn:Ht; [|done].
  assert (Ht' : toca hoy' d = true).
  { unfold toca in *. apply andb_true_iff in Ht as [H1 H2].
    rewrite H1. simpl. apply Z.gtb_lt in H2. apply Z.gtb_lt. lia. }
  unfold reclasificar. rewrite Ht'.
  assert (Hn : toca hoy'
    (con_mora (dias_entre hoy (deuda_fechaVencimiento d))
       (estado_por_dias (dias_entre hoy (deuda_fechaVencimiento d))) d) = true).
  { unfold toca in *. simpl. apply andb_true_iff in Ht' as [_ ->].
    rewrite bool_decide_eq_true_2; [done|]. apply estado_por_dias_no_pagada. }
  by rewrite Hn.
Qed.

(** When the store accepts the writes, a run of the job makes the earlier
    runs irrelevant: running it at a date and then at a later date leaves
    what the later run alone leaves. *)
Theorem actualizarDiasMora_absorbe (hoy hoy' : Z) (deudas : list Deuda) :
  hoy <= hoy' ->
  actualizarDiasMora hoy' (fun _ => false)
    (actualizarDiasMora hoy (fun _ => false) deudas).1
  = actualizarDiasMora hoy' (fun _ => false) deudas.
Proof.
  intros Hle. rewrite !actualizarDiasMora_pasada, !pasada_sin_rechazos by done.
  simpl. f_equal. rewrite <- list_fmap_compose. apply list_fmap_ext.
  intros j d _. simpl. by apply reclasificar_absorbe.
Qed.

Lemma actualizarDiasMora_absorbe_witness :
  actualizarDiasMora (95 * ms_por_dia) (fun _ => false)
    (actualizarDiasMora (45 * ms_por_dia) (fun _ => false) [deuda_de 0 pendiente]).1
  = ([con_mora 95 mora_avanzada (deuda_de 0 pendiente)],
     RegistroLog "Días en mora actualizados correctamente").
Proof.
  rewrite (actualizarDiasMora_absorbe (45 * ms_por_dia) (95 * ms_por_dia)
             [deuda_de 0 pendiente]).
  - reflexivity.
  - vm_compute. discriminate.
Defined.

Lemma estado_por_dias_monotona n n' :
  n <= n' -> rango (estado_por_dias n) <= rango (estado_por_dias n').
Proof.
  intros Hle. unfold estado_por_dias.
  destruct (Z.leb_spec n 30), (Z.leb_spec n' 30); simpl; try lia;
    destruct (Z.leb_spec n 90), (Z.leb_spec n' 90); simpl; lia.
Qed.

(** Time only moves an overdue debt forward: at a later reference date its
    days in arrears are not fewer and its state is not an earlier one. *)
Theorem clasificar_alta_escala (hoy hoy' : Z) (d : Deuda) :
  deuda_fechaVencimiento d < hoy ->
  hoy <= hoy' ->
  deuda_diasMora (clasificar_alta hoy d) <= deuda_diasMora (clasificar_alta hoy' d) /\
  rango (deuda_estado (clasificar_alta hoy d))
    <= rango (deuda_estado (clasificar_alta hoy' d)).
Proof.
  intros Hv Hle. unfold clasificar_alta.
  destruct (Z.gtb_spec hoy (deuda_fechaVencimiento d)); [|lia].
  destruct (Z.gtb_spec hoy' (deuda_fechaVencimiento d)); [|lia].
  simpl.
  assert (dias_entre hoy (deuda_fechaVencimiento d)
          <= dias_entre hoy' (deuda_fechaVencimiento d))
    by (unfold dias_entre; apply Z.div_le_mono; [done|lia]).
  split; [done|by apply estado_por_dias_monotona].
Qed.

Lemma clasificar_alta_escala_witness :
  deuda_diasMora (clasificar_alta (45 * ms_por_dia) (deuda_de 0 pendiente))
  <= deuda_diasMora (clasificar_alta (95 * ms_por_dia) (deuda_de 0 pendiente)).
Proof.
  apply (clasificar_alta_escala (45 * ms_por_dia) (95 * ms_por_dia) (deuda_de 0 pendiente)).
  - reflexivity.
  - vm_compute. discriminate.
Defined.

Lemma reclasificar_valida hoy d :
  validador_deudas d = true -> validador_deudas (reclasificar hoy d) = true.
Proof.
  unfold validador_deudas, reclasificar. intros H.
  destruct (toca hoy d) eqn:Ht; [|done]. simpl.
  apply andb_true_iff in H as [-> _]. simpl. apply Z.leb_le.
  unfold toca in Ht. apply andb_true_iff in Ht as [_ Ht]. apply Z.gtb_lt in Ht.
  unfold dias_entre. apply Z.div_pos; [lia|done].
Qed.

(** The job keeps the store within the validator of the collection: when
    every debt has a non-negative amount and non-negative days in arrears
    before a run, every debt has them after it, whatever writes are
    rejected. *)
Theorem actualizarDiasMora_valida (hoy : Z) (rechaza : nat -> bool)
    (deudas : list Deuda) :
  Forall (fun d => validador_deudas d = true) deudas ->
  Forall (fun d => validador_deudas d = true) (actualizarDiasMora hoy rechaza deudas).1.
Proof.
  rewrite actualizarDiasMora_pasada. simpl. generalize 0%nat.
  induction deudas as [|d ds IH]; intros i H; [done|].
  inversion H as [|? ? Hd Hds]; subst. simpl.
  destruct (toca hoy d && rechaza i); simpl; [done|].
  constructor; [by apply reclasificar_valida|by apply IH].
Qed.

Lemma actualizarDiasMora_valida_witness :
  Forall (fun d => validador_deudas d = true)
    (actualizarDiasMora (45 * ms_por_dia) (fun _ => false)
       [deuda_de 0 pendiente; deuda_de 0 pagada]).1.
Proof.
  apply (actualizarDiasMora_valida (45 * ms_por_dia) (fun _ => false)
           [deuda_de 0 pendiente; deuda_de 0 pagada]).
  repeat constructor.
Defined.

(** A debt created past its due date is stored in one of the three arrears
    states whatever state its body gave (a body that says [pagada] or
    [cancelada] included), at the end of the collection, whose earlier
    documents stay as they were; the answer is 201. *)
Theorem crear_deuda_vencida (hoy : Z) (rechaza : Deuda -> option string)
    (deuda : Deuda) (deudas : list Deuda) :
  deuda_fechaVencimiento deuda < hoy ->
  rechaza (clasificar_alta hoy deuda) = None ->
  let r := crear_deuda hoy rechaza deuda deudas in
  (exists guardada,
     r.1 !! length deudas = Some guardada /\
     r.2 = {| status := 201; json := CuerpoDeuda guardada |} /\
     0 <= deuda_diasMora guardada /\
     (deuda_estado guardada = mora_temprana \/ deuda_estado guardada = mora_media
      \/ deuda_estado guardada = mora_avanzada)) /\
  length r.1 = S (length deudas) /\
  (forall i, (i < length deudas)%nat -> r.1 !! i = deudas !! i).
Proof.
  intros Hv Hr. rewrite crear_deuda_guarda, Hr. simpl. split; [|split].
  - exists (clasificar_alta hoy deuda).
    rewrite lookup_app_r, Nat.sub_diag by lia. split; [done|]. split; [done|].
    unfold clasificar_alta.
    destruct (Z.gtb_spec hoy (deuda_fechaVencimiento deuda)); [|lia]. simpl.
    split; [unfold dias_entre; apply Z.div_pos; [lia|done]|].
    unfold estado_por_dias. repeat case_match; auto.
  - rewrite length_app. simpl. lia.
  - intros i Hi. by rewrite lookup_app_l.
Qed.

Lemma crear_deuda_vencida_witness :
  length (crear_deuda (45 * ms_por_dia) (fun _ => None) (deuda_de 0 pagada) []).1
  = 1%nat.
Proof.
  exact (proj1 (proj2 (crear_deuda_vencida (45 * ms_por_dia) (fun _ => None)
                         (deuda_de 0 pagada) [] eq_refl eq_refl))).
Defined.

(** ** Campaign comparison *)

(** A campaign with messages sent and a counter at 0 has the rate 0.00. *)
Theorem tasa_cuenta_cero (ts : spec_float -> string) (enviados : Z) :
  enviados <> 0 -> tasa ts 0 enviados = "0.00".
Proof.
  intros Hn. unfold tasa. change (Number_de_Z 0) with (S754_zero false).
  change (Number_de_Z 100) with (S754_finite false 7036874417766400 (-46)).
  pose proof (Number_de_Z_signo enviados) as H.
  destruct enviados; [done| |]; by destruct H as [(m & e & ->)| ->].
Qed.

Lemma tasa_cuenta_cero_witness : tasa (fun _ => EmptyString) 0 25 = "0.00".
Proof. apply (tasa_cuenta_cero (fun _ => EmptyString) 25). discriminate. Defined.



(** ** Health endpoint and container probe *)

(** With the database not connected the endpoint answers 503, and the body
    it sends still reads status OK: the spread of [healthData] comes after
    the ERROR status and overwrites it.  The message and the disconnected
    state of mongodb are in the body. *)
Theorem health_desconectada (p : Proceso) :
  readyState p <> 1 ->
  health p =
    {| codigo := 503;
       cuerpo :=
         JObject
           [ ("status", JString "OK");
             ("message", JString "Base de datos no disponible");
             ("timestamp", JString (toISOString p));
             ("uptime", JString (texto_Z (uptime_minutos p) ++ " minutos")%string);
             ("version", JString "1.0.0");
             ("services",
              JObject
                [ ("mongodb", JString "disconnected");
                  ("memory",
                   JObject [ ("used", JNumber (heapUsed_MB p));
                             ("total", JNumber (heapTotal_MB p));
                             ("unit", JString "MB") ]) ]) ] |}.
Proof.
  intros H. unfold health, healthData, mongoStatus.
  destruct (Z.eqb_spec (readyState p) 1); [done|]. reflexivity.
Qed.

Lemma health_desconectada_witness :
  codigo (health {| readyState := 0; toISOString := "2024-01-01T00:00:00.000Z";
                    uptime_minutos := 3; heapUsed_MB := 40; heapTotal_MB := 64 |})
  = 503.
Proof.
  rewrite (health_desconectada
             {| readyState := 0; toISOString := "2024-01-01T00:00:00.000Z";
                uptime_minutos := 3; heapUsed_MB := 40; heapTotal_MB := 64 |}).
  - reflexivity.
  - discriminate.
Defined.

(** The endpoint answers 200 exactly when the connection is in the state 1,
    and 503 otherwise. *)
Theorem health_codigo (p : Proceso) :
  (codigo (health p) = 200 <-> readyState p = 1) /\
  (codigo (health p) = 200 \/ codigo (health p) = 503).
Proof.
  unfold health, mongoStatus.
  destruct (Z.eqb_spec (readyState p) 1); simpl; split; try split; auto; done.
Qed.

Lemma healthCheck_http_falla s :
  http_request s (o_bien (PORT s) "3000") "/api/health" <> HTTPResponse 200 ->
  exists message,
    healthCheck s =
      ([ ConsoleLog "🔍 Iniciando verificación de salud...";
         HttpRequest (o_bien (PORT s) "3000") "/api/health";
         ConsoleError "❌ Error en verificación de salud:" message ], 1).
Proof.
  intros H. unfold healthCheck, checkHTTP, console_log.
  unfold modificar, lanzar, leer, mbind, mret, efecto_bind, efecto_ret, ligar, devolver.
  cbn -[append texto_Z].
  destruct (http_request s (o_bien (PORT s) "3000") "/api/health") as [c|msg|];
    cbn -[append texto_Z]; eauto.
  destruct (Z.eqb_spec c 200) as [->|]; [done|]. cbn -[append texto_Z]. eauto.
Qed.


(** Unless the server answers 200 the probe exits with 1 and leaves the
    database alone: it opens no connection. *)
Theorem healthCheck_sin_mongo (s : Sonda) :
  http_request s (o_bien (PORT s) "3000") "/api/health" <> HTTPResponse 200 ->
  (healthCheck s).2 = 1 /\
  forall uri, MongooseConnect uri ∉ (healthCheck s).1.
Proof.
  intros Hh. destruct (healthCheck_http_falla s Hh) as [msg ->]. simpl.
  split; [done|]. intros uri Hin.
  apply list_elem_of_In in Hin. simpl in Hin.
  destruct Hin as [?|[?|[?|[]]]]; discriminate.
Qed.

(** A server whose database is not connected fails the probe of its
    container: the probe gets the 503 of the health endpoint and exits with
    1. *)
Theorem healthCheck_servidor_desconectado (s : Sonda) (p : Proceso) :
  readyState p <> 1 ->
  http_request s (o_bien (PORT s) "3000") "/api/health"
    = HTTPResponse (codigo (health p)) ->
  healthCheck s =
    ([ ConsoleLog "🔍 Iniciando verificación de salud...";
       HttpRequest (o_bien (PORT s) "3000") "/api/health";
       ConsoleError "❌ Error en verificación de salud:" "HTTP Status: 503" ], 1).
Proof.
  intros Hp Hh.
  assert (Hc : codigo (health p) = 503).
  { unfold health, mongoStatus. by destruct (Z.eqb_spec (readyState p) 1). }
  rewrite Hc in Hh.
  unfold healthCheck, checkHTTP, console_log.
  unfold modificar, lanzar, leer, mbind, mret, efecto_bind, efecto_ret, ligar, devolver.
  cbn -[append texto_Z]. rewrite Hh. reflexivity.
Qed.


Lemma healthCheck_sin_mongo_witness :
  (healthCheck {| PORT := Some "8080"; MONGODB_URI := None;
                  http_request := fun _ _ => HTTPTimeout;
                  mongoose_connect := fun _ => None |}).2 = 1.
Proof.
  apply (healthCheck_sin_mongo {| PORT := Some "8080"; MONGODB_URI := None;
                                  http_request := fun _ _ => HTTPTimeout;
                                  mongoose_connect := fun _ => None |}).
  discriminate.
Defined.

Lemma healthCheck_servidor_desconectado_witness :
  let p := {| readyState := 2; toISOString := "2024-01-01T00:00:00.000Z";
              uptime_minutos := 0; heapUsed_MB := 40; heapTotal_MB := 64 |} in
  (healthCheck {| PORT := None; MONGODB_URI := None;
                  http_request := fun _ _ => HTTPResponse (codigo (health p));
                  mongoose_connect := fun _ => None |}).2 = 1.
Proof.
  intros p.
  rewrite (healthCheck_servidor_desconectado
             {| PORT := None; MONGODB_URI := None;
                http_request := fun _ _ => HTTPResponse (codigo (health p));
                mongoose_connect := fun _ => None |} p).
  - reflexivity.
  - discriminate.
  - reflexivity.
Defined.

(** ** Authentication middleware *)

Lemma split_espacio_no_vacia s : split_espacio s <> [].
Proof.
  destruct s as [|c s]; [done|]. simpl.
  destruct (Ascii.eqb c " "); [done|]. by destruct (split_espacio s).
Qed.

Lemma split_espacio_palabra w resto :
  sin_espacio w = true ->
  split_espacio (w ++ String " " resto)%string = w :: split_espacio resto.
Proof.
  induction w as [|c w IH]; simpl; intros H; [done|].
  apply andb_true_iff in H as [Hc Hw]. apply negb_true_iff in Hc.
  by rewrite Hc, IH.
Qed.

Lemma split_espacio_una w :
  sin_espacio w = true -> split_espacio w = [w].
Proof.
  induction w as [|c w IH]; simpl; intros H; [done|].
  apply andb_true_iff in H as [Hc Hw]. apply negb_true_iff in Hc.
  by rewrite Hc, IH.
Qed.

Lemma split_espacio_segunda s :
  split_espacio s !! 1%nat = None <-> sin_espacio s = true.
Proof.
  induction s as [|c s IH]; simpl; [done|].
  destruct (Ascii.eqb c " ") eqn:Hc; simpl.
  - pose proof (split_espacio_no_vacia s). split; [|done].
    by destruct (split_espacio s).
  - pose proof (split_espacio_no_vacia s).
    destruct (split_espacio s) as [|w ws] eqn:Hs; [done|]. simpl in *. done.
Qed.

Lemma authenticateToken_leido (j : JWT) (esquema token cola : string) :
  sin_espacio esquema = true ->
  sin_espacio token = true ->
  cola = EmptyString \/ (exists resto, cola = String " " resto) ->
  authenticateToken j (Some (esquema ++ String " " (token ++ cola))%string) =
    match jwt_verify j token (secreto j) with
    | None => SendStatus 403
    | Some user => Next user
    end.
Proof.
  intros He Ht Hcola. unfold authenticateToken.
  assert (Hne : String.eqb (esquema ++ String " " (token ++ cola))%string
                  EmptyString = false)
    by (by destruct esquema).
  rewrite Hne, split_espacio_palabra by done. simpl.
  destruct Hcola as [->|[resto ->]].
  - assert (Hnil : (token ++ EmptyString)%string = token)
      by (clear; induction token as [|c t IH]; simpl; [done|by rewrite IH]).
    by rewrite Hnil, split_espacio_una.
  - by rewrite split_espacio_palabra.
Qed.

(** The middleware reads the second word of the header and nothing else:
    the word before the first space (the scheme) is not looked at, and
    neither is what follows a second space.  The request goes on exactly
    when the token library accepts that word. *)
Theorem authenticateToken_palabra (j : JWT) (esquema token resto : string) :
  sin_espacio esquema = true ->
  sin_espacio token = true ->
  let paso :=
    match jwt_verify j token (secreto j) with
    | None => SendStatus 403
    | Some user => Next user
    end in
  authenticateToken j (Some (esquema ++ " " ++ token)%string) = paso /\
  authenticateToken j (Some (esquema ++ " " ++ token ++ " " ++ resto)%string) = paso.
Proof.
  intros He Ht. split.
  - assert (Hnil : (token ++ EmptyString)%string = token)
      by (clear; induction token as [|c t IH]; simpl; [done|by rewrite IH]).
    rewrite <- Hnil at 1.
    apply (authenticateToken_leido j esquema token EmptyString); auto.
  - apply (authenticateToken_leido j esquema token (String " " resto)); eauto.
Qed.

Lemma authenticateToken_palabra_witness :
  let j := {| JWT_SECRET := None;
              jwt_sign := fun _ _ => "t";
              jwt_verify := fun token _ =>
                if String.eqb token "abc"
                then Some {| sesion_id := 0; sesion_email := "a@b.c"; sesion_rol := gestor |}
                else None |} in
  authenticateToken j (Some "Basic abc")
  = Next {| sesion_id := 0; sesion_email := "a@b.c"; sesion_rol := gestor |}.
Proof.
  exact (proj1 (authenticateToken_palabra
                  {| JWT_SECRET := None;
                     jwt_sign := fun _ _ => "t";
                     jwt_verify := fun token _ =>
                       if String.eqb token "abc"
                       then Some {| sesion_id := 0; sesion_email := "a@b.c";
                                    sesion_rol := gestor |}
                       else None |}
                  "Basic" "abc" EmptyString eq_refl eq_refl)).
Defined.

(** The middleware answers 401 exactly when there is no authorization
    header, or when the header is a single word; an empty header is not a
    401: its empty token goes to the token library. *)
Theorem authenticateToken_401 (j : JWT) (authHeader : option string) :
  authenticateToken j authHeader = SendStatus 401 <->
  authHeader = None \/
  exists h, authHeader = Some h /\ h <> EmptyString /\ sin_espacio h = true.
Proof.
  unfold authenticateToken. destruct authHeader as [h|].
  - destruct (String.eqb_spec h EmptyString) as [->|Hne].
    + split.
      * destruct (jwt_verify j EmptyString (secreto j)); discriminate.
      * intros [?|(h & [= <-] & ? & _)]; done.
    + destruct (split_espacio h !! 1%nat) as [t|] eqn:Ht.
      * split.
        -- destruct (jwt_verify j t (secreto j)); discriminate.
        -- intros [?|(h' & [= <-] & _ & Hs)]; [done|].
           apply split_espacio_segunda in Hs. congruence.
      * split; [|done]. intros _. right. exists h.
        split; [done|]. split; [done|]. by apply split_espacio_segunda.
  - split; [by left|done].
Qed.

Lemma authenticateToken_401_witness :
  authenticateToken {| JWT_SECRET := None; jwt_sign := fun _ _ => "t";
                       jwt_verify := fun _ _ => None |} (Some "Bearer")
  = SendStatus 401.
Proof.
  apply (authenticateToken_401 {| JWT_SECRET := None; jwt_sign := fun _ _ => "t";
                                  jwt_verify := fun _ _ => None |} (Some "Bearer")).
  right. exists "Bearer". split; [reflexivity|]. split; [discriminate|reflexivity].
Defined.

(** ** Login *)

Lemma findOne_desde_Some {A} (f : A -> bool) (docs : list A) : forall i k x,
  findOne_desde f i docs = Some (k, x) ->
  (i <= k)%nat /\ docs !! (k - i)%nat = Some x /\ f x = true.
Proof.
  induction docs as [|y docs IH]; intros i k x H; [done|]. simpl in H.
  destruct (f y) eqn:Hy.
  - injection H as <- <-. rewrite Nat.sub_diag. by repeat split.
  - apply IH in H as (Hle & Hl & Hf). split; [lia|]. split; [|done].
    replace (k - i)%nat with (S (k - S i)) by lia. done.
Qed.

Lemma findOne_desde_existsb {A} (f : A -> bool) (docs : list A) : forall i,
  findOne_desde f i docs = None <-> existsb f docs = false.
Proof.
  induction docs as [|y docs IH]; intros i; simpl; [done|].
  destruct (f y); simpl; [done|apply IH].
Qed.





(** Whatever its outcome, a login keeps every user in place and changes no
    name, address, hash, role or active flag: the date of the last access is
    the only field it writes. *)
Theorem login_conserva (j : JWT) (b : Bcrypt) (ahora : Z)
    (rechaza : nat -> option string) (email password : string)
    (usuarios : list Usuario) (k : nat) (u : Usuario) :
  usuarios !! k = Some u ->
  exists u', (login j b ahora rechaza email password usuarios).1 !! k = Some u' /\
    usuario_nombre u' = usuario_nombre u /\
    usuario_email u' = usuario_email u /\
    usuario_password u' = usuario_password u /\
    usuario_rol u' = usuario_rol u /\
    usuario_activo u' = usuario_activo u.
Proof.
  intros Hk. unfold login, mbind, efecto_bind, ligar, leer, Usuario_save.
  destruct (Usuario_findOne_activo email usuarios) as [[i x]|] eqn:Hf; [|by exists u].
  apply findOne_desde_Some in Hf as (_ & Hl & _). rewrite Nat.sub_0_r in Hl.
  destruct (bcrypt_compare b password (usuario_password x)); [|by exists u].
  simpl. destruct (rechaza i); simpl; [by exists u|].
  destruct (decide (i = k)) as [->|Hne].
  - rewrite list_lookup_insert_eq by (by eapply lookup_lt_Some).
    exists (con_ultimoAcceso ahora x). split; [done|]. by simplify_eq.
  - rewrite list_lookup_insert_ne by done. by exists u.
Qed.

Lemma login_conserva_witness :
  let ana := {| usuario_nombre := "Ana"; usuario_email := "ana@email.com";
                usuario_password := "clave"; usuario_rol := gestor;
                usuario_ultimoAcceso := None; usuario_activo := true |} in
  exists u',
    (login {| JWT_SECRET := None; jwt_sign := fun _ _ => "t";
              jwt_verify := fun _ _ => None |}
       {| bcrypt_hash := fun p => p; bcrypt_compare := String.eqb |}
       86400000 (fun _ => None) "ana@email.com" "clave" [ana]).1 !! 0%nat = Some u' /\
    usuario_password u' = "clave".
Proof.
  intros ana.
  destruct (login_conserva
              {| JWT_SECRET := None; jwt_sign := fun _ _ => "t";
                 jwt_verify := fun _ _ => None |}
              {| bcrypt_hash := fun p => p; bcrypt_compare := String.eqb |}
              86400000 (fun _ => None) "ana@email.com" "clave" [ana] 0 ana eq_refl)
    as (u' & Hu' & _ & _ & Hp & _).
  exists u'. split; [exact Hu'|exact Hp].
Defined.

(** On the simplified server, a login with the address of the administrator
    on a store that holds no user of that address creates the account,
    whether or not the password it was given is the right one: the store
    gains the account, and the answer is 200 or 401 as the hash of the
    default password accepts the given one or not. *)
Theorem login_simple_crea_administrador (j : JWT) (b : Bcrypt)
    (password : string) (usuarios : list Usuario) :
  password <> EmptyString ->
  (forall u, u ∈ usuarios -> usuario_email u <> "admin@cobranza.com") ->
  let r := login_simple j b (Some "admin@cobranza.com") (Some password) usuarios in
  r.1 = usuarios ++ [administrador b] /\
  login_status r.2 =
    if bcrypt_compare b password (bcrypt_hash b "admin123") then 200 else 401.
Proof.
  intros Hp Hno. unfold login_simple.
  assert (Hf : falsy (Some password) = false).
  { simpl. by destruct (String.eqb_spec password EmptyString). }
  rewrite Hf. cbn -[String.eqb administrador Usuario_findOne_activo].
  assert (Hex : existsb (fun x => String.eqb (usuario_email x) "admin@cobranza.com")
                  usuarios = false).
  { apply not_true_iff_false. intros H. apply existsb_exists in H as (u & Hu & He).
    apply String.eqb_eq in He. apply (Hno u); [by apply list_elem_of_In|done]. }
  assert (Hnone : Usuario_findOne_activo "admin@cobranza.com" usuarios = None).
  { apply findOne_desde_existsb. apply not_true_iff_false. intros H.
    apply existsb_exists in H as (u & Hu & He).
    apply andb_true_iff in He as [He _]. apply String.eqb_eq in He.
    apply (Hno u); [by apply list_elem_of_In|done]. }
  unfold mbind, efecto_bind, ligar, leer, mret, efecto_ret, devolver, Usuario_insertar.
  rewrite Hnone. cbn -[administrador]. 
  change (usuario_email (administrador b)) with "admin@cobranza.com".
  rewrite Hex.
  change (usuario_password (administrador b)) with (bcrypt_hash b "admin123").
  by destruct (bcrypt_compare b password (bcrypt_hash b "admin123")).
Qed.

Lemma login_simple_crea_administrador_witness :
  let b := {| bcrypt_hash := fun p => p; bcrypt_compare := String.eqb |} in
  let r := login_simple {| JWT_SECRET := None; jwt_sign := fun _ _ => "t";
                           jwt_verify := fun _ _ => None |}
             b (Some "admin@cobranza.com") (Some "otra") [] in
  r.1 = [administrador b] /\ login_status r.2 = 401.
Proof.
  intros b.
  exact (login_simple_crea_administrador
           {| JWT_SECRET := None; jwt_sign := fun _ _ => "t";
              jwt_verify := fun _ _ => None |}
           b "otra" [] ltac:(discriminate)
           (fun u Hu => match not_elem_of_nil u Hu with end)).
Defined.



(** ** Sample data *)

Lemma sembrar_cliente_asegura c s :
  sembrar_cliente c s =
    ({| sem_usuarios := sem_usuarios s;
        sem_clientes :=
          asegurar (fun x => String.eqb (cliente_email x) (cliente_email c)) c
            (sem_clientes s) |}, inr tt).
Proof.
  unfold sembrar_cliente, mbind, efecto_bind, ligar, leer, en_clientes,
    Cliente_insertar, asegurar, mret, efecto_ret, devolver.
  destruct (findOne_desde _ 0 (sem_clientes s)) as [[k x]|] eqn:Hf.
  - assert (Hex : existsb (fun x => String.eqb (cliente_email x) (cliente_email c))
                    (sem_clientes s) = true).
    { apply not_false_iff_true. intros H.
      apply findOne_desde_existsb with (i := 0%nat) in H. congruence. }
    rewrite Hex. by destruct s.
  - apply findOne_desde_existsb in Hf. by rewrite Hf.
Qed.

(** The seed handler never fails on the unique indexes, since it looks
    before it inserts: it answers 200 and leaves [sembrado]. *)
Lemma seed_sembrado b s :
  seed b s = (sembrado b s, (200, "Datos de ejemplo creados exitosamente")).
Proof.
  unfold seed, sembrado, clientesExample.
  unfold mbind at 1 2 3. unfold efecto_bind, ligar, leer.
  unfold Usuario_findOne.
  destruct (findOne_desde _ 0 (sem_usuarios s)) as [[k x]|] eqn:Hf.
  - assert (Hex : existsb (fun u => String.eqb (usuario_email u) "admin@cobranza.com")
                    (sem_usuarios s) = true).
    { apply not_false_iff_true. intros H.
      apply findOne_desde_existsb with (i := 0%nat) in H. congruence. }
    unfold asegurar at 1. rewrite Hex.
    unfold mret, efecto_ret, devolver. simpl para_cada.
    unfold mbind, efecto_bind, ligar. rewrite !sembrar_cliente_asegura. simpl.
    by destruct s.
  - apply findOne_desde_existsb in Hf.
    unfold asegurar at 1. rewrite Hf.
    unfold mbind, efecto_bind, ligar, en_usuarios, Usuario_insertar. simpl usuario_email.
    rewrite Hf. unfold mret, efecto_ret, devolver. simpl para_cada.
    unfold mbind, efecto_bind, ligar. rewrite !sembrar_cliente_asegura. simpl. done.
Qed.

Lemma existsb_asegurar_propio {A} (f : A -> bool) x l :
  f x = true -> existsb f (asegurar f x l) = true.
Proof.
  intros Hx. unfold asegurar. destruct (existsb f l) eqn:H; [done|].
  rewrite existsb_app. simpl. by rewrite Hx, !orb_true_r.
Qed.

Lemma existsb_asegurar_mono {A} (f g : A -> bool) y l :
  existsb f l = true -> existsb f (asegurar g y l) = true.
Proof.
  intros H. unfold asegurar. destruct (existsb g l); [done|].
  rewrite existsb_app. by rewrite H.
Qed.

Lemma asegurar_presente {A} (f : A -> bool) x l :
  existsb f l = true -> asegurar f x l = l.
Proof. intros H. unfold asegurar. by rewrite H. Qed.

(** Seeding is idempotent: a second call answers 200 again and leaves the
    store of the first. *)
Theorem seed_idempotente (b : Bcrypt) (s : Semillero) :
  seed b (seed b s).1 = ((seed b s).1, (200, "Datos de ejemplo creados exitosamente")).
Proof.
  rewrite !seed_sembrado. simpl. f_equal.
  unfold sembrado, clientesExample. simpl. f_equal.
  - apply asegurar_presente. by apply existsb_asegurar_propio.
  - rewrite (asegurar_presente _ _ (asegurar _ _ (asegurar _ _ (sem_clientes s)))).
    + apply asegurar_presente. by apply existsb_asegurar_propio.
    + apply existsb_asegurar_mono. by apply existsb_asegurar_propio.
Qed.

Lemma asegurar_NoDup {A} (clave : A -> string) (x : A) (l : list A) :
  NoDup (clave <$> l) ->
  NoDup (clave <$> asegurar (fun y => String.eqb (clave y) (clave x)) x l).
Proof.
  intros Hnd. unfold asegurar.
  destruct (existsb _ l) eqn:Hex; [done|].
  rewrite fmap_app. simpl. apply NoDup_app. split; [done|]. split.
  - intros k Hk Hk'. apply list_elem_of_singleton in Hk'. subst k.
    apply list_elem_of_fmap in Hk as (y & Hy & Hin).
    apply not_true_iff_false in Hex. apply Hex. apply existsb_exists.
    exists y. split; [by apply list_elem_of_In|]. by apply String.eqb_eq.
  - apply NoDup_singleton.
Qed.

(** Seeding keeps the addresses unique: when no two users and no two
    customers share an address before the call, none do after it; and what
    was stored is still there, in its place. *)
Theorem seed_sin_duplicados (b : Bcrypt) (s : Semillero) :
  NoDup (usuario_email <$> sem_usuarios s) ->
  NoDup (cliente_email <$> sem_clientes s) ->
  NoDup (usuario_email <$> sem_usuarios (seed b s).1) /\
  NoDup (cliente_email <$> sem_clientes (seed b s).1) /\
  (exists us, sem_usuarios (seed b s).1 = sem_usuarios s ++ us) /\
  (exists cs, sem_clientes (seed b s).1 = sem_clientes s ++ cs).
Proof.
  intros Hu Hc. rewrite seed_sembrado. simpl. split; [|split; [|split]].
  - apply (asegurar_NoDup usuario_email
             {| usuario_nombre := "Administrador Principal";
                usuario_email := "admin@cobranza.com";
                usuario_password := bcrypt_hash b "admin123"; usuario_rol := admin;
                usuario_ultimoAcceso := None; usuario_activo := true |}). done.
  - unfold clientesExample. simpl.
    apply (asegurar_NoDup cliente_email
             {| cliente_nombre := "Carlos López Méndez";
                cliente_email := "carlos.lopez@empresa.com";
                cliente_telefono := "+50287654321";
                cliente_whatsapp := Some "+50287654321" |}).
    by apply (asegurar_NoDup cliente_email
                {| cliente_nombre := "María García Rodríguez";
                   cliente_email := "maria.garcia@email.com";
                   cliente_telefono := "+50212345678";
                   cliente_whatsapp := Some "+50212345678" |}).
  - unfold asegurar. destruct (existsb _ _); [exists []; by rewrite app_nil_r|eauto].
  - unfold clientesExample. simpl. unfold asegurar.
    repeat destruct (existsb _ _); rewrite <- ?app_assoc; eauto.
    exists []. by rewrite app_nil_r.
Qed.

Lemma seed_sin_duplicados_witness :
  NoDup (cliente_email <$>
           sem_clientes
             (seed {| bcrypt_hash := fun p => p; bcrypt_compare := String.eqb |}
                {| sem_usuarios := []; sem_clientes := [cliente_ana] |}).1).
Proof.
  apply (seed_sin_duplicados {| bcrypt_hash := fun p => p; bcrypt_compare := String.eqb |}
           {| sem_usuarios := []; sem_clientes := [cliente_ana] |}).
  - apply NoDup_nil_2.
  - apply NoDup_singleton.
Defined.

(** After a seeding the administrator and the two sample customers are
    there to be found by their address, whatever the store held. *)
Theorem seed_presentes (b : Bcrypt) (s : Semillero) :
  is_Some (Usuario_findOne "admin@cobranza.com" (sem_usuarios (seed b s).1)) /\
  Forall (fun c =>
            is_Some (findOne_desde
                       (fun x => String.eqb (cliente_email x) (cliente_email c)) 0
                       (sem_clientes (seed b s).1)))
    clientesExample.
Proof.
  assert (Hs : forall {A} (f : A -> bool) l,
             existsb f l = true -> is_Some (findOne_desde f 0 l)).
  { intros A f l H. destruct (findOne_desde f 0 l) eqn:Hf; [done|].
    apply findOne_desde_existsb in Hf. congruence. }
  rewrite seed_sembrado. simpl. split.
  - apply Hs. by apply existsb_asegurar_propio.
  - unfold clientesExample. simpl. repeat constructor; apply Hs.
    + apply existsb_asegurar_mono. by apply existsb_asegurar_propio.
    + by apply existsb_asegurar_propio.
Qed.

Lemma seed_idempotente_witness :
  let b := {| bcrypt_hash := fun p => p; bcrypt_compare := String.eqb |} in
  let s := {| sem_usuarios := []; sem_clientes := [] |} in
  length (sem_clientes (seed b (seed b s).1).1) = 2%nat.
Proof.
  intros b s. rewrite (seed_idempotente b s). reflexivity.
Defined.

(** ** Listing of templates *)

Global Instance por_diasMora_total : Total por_diasMora.
Proof. intros p q. unfold por_diasMora. lia. Qed.

Global Instance por_diasMora_trans : Transitive por_diasMora.
Proof. intros p q r. unfold por_diasMora. lia. Qed.

Lemma listada_spec tipo tono p :
  listada tipo tono p = true <->
  plantilla_activa p = true /\
  (falsy tipo = false -> tipo = Some (nombre_canal (plantilla_tipo p))) /\
  (falsy tono = false -> tono = Some (nombre_tono (plantilla_tono p))).
Proof.
  unfold listada. rewrite !andb_true_iff.
  destruct (plantilla_activa p); simpl; [|intuition congruence].
  destruct tipo as [t|], tono as [n|]; simpl;
    repeat match goal with
           | |- context [String.eqb ?a EmptyString] =>
               destruct (String.eqb_spec a EmptyString)
           | |- context [String.eqb ?a ?b] => destruct (String.eqb_spec a b)
           end; intuition congruence.
Qed.

(** The listing shows the templates in ascending order of threshold, and
    shows exactly the active templates of the store, each as often as it is
    stored, narrowed to the channel and to the tone when the parameter is
    given and not empty. *)
Theorem listar_plantillas_correcta (tipo tono : option string)
    (plantillas : list Plantilla) :
  StronglySorted por_diasMora (listar_plantillas tipo tono plantillas) /\
  listar_plantillas tipo tono plantillas
    ≡ₚ List.filter (listada tipo tono) plantillas /\
  forall p, p ∈ listar_plantillas tipo tono plantillas <->
    p ∈ plantillas /\ plantilla_activa p = true /\
    (falsy tipo = false -> tipo = Some (nombre_canal (plantilla_tipo p))) /\
    (falsy tono = false -> tono = Some (nombre_tono (plantilla_tono p))).
Proof.
  unfold listar_plantillas. split; [|split].
  - apply StronglySorted_merge_sort; apply _.
  - apply merge_sort_Permutation.
  - intros p. rewrite merge_sort_Permutation.
    rewrite list_elem_of_In, filter_In, <- list_elem_of_In, listada_spec. done.
Qed.

Lemma listar_plantillas_correcta_witness :
  plantilla_formal 90 "Estimado {nombre}, su caso pasa a gestión legal."
  ∈ listar_plantillas None (Some "formal") catalogo.
Proof.
  apply (listar_plantillas_correcta None (Some "formal") catalogo).
  split; [|split; [reflexivity|split; [discriminate|reflexivity]]].
  unfold catalogo. do 2 apply list_elem_of_further. apply list_elem_of_here.
Defined.

(** The template a dispatch selects is one the listing shows for its
    channel and tone, and among those shown whose threshold is not above the
    days in arrears none has a larger threshold. *)
Theorem seleccionada_en_listado (tipo tono : string) (dias : Z)
    (plantillas : list Plantilla) (p : Plantilla) :
  Plantilla_findOne tipo tono dias plantillas = Some p ->
  p ∈ listar_plantillas (Some tipo) (Some tono) plantillas /\
  forall q, q ∈ listar_plantillas (Some tipo) (Some tono) plantillas ->
            plantilla_diasMora q <= dias ->
            plantilla_diasMora q <= plantilla_diasMora p.
Proof.
  intros Hf. apply findOne_Some in Hf as (Hin & Hco & Hmax).
  pose proof Hco as Hco'. apply coincide_spec in Hco' as (Ht & Hn & Hd & Ha).
  assert (Hmiembro : forall q,
            q ∈ listar_plantillas (Some tipo) (Some tono) plantillas <->
            q ∈ plantillas /\ listada (Some tipo) (Some tono) q = true).
  { intros q. unfold listar_plantillas. rewrite merge_sort_Permutation.
    by rewrite list_elem_of_In, filter_In, <- list_elem_of_In. }
  assert (Htipo : falsy (Some tipo) = false) by (rewrite <- Ht; by destruct (plantilla_tipo p)).
  assert (Htono : falsy (Some tono) = false) by (rewrite <- Hn; by destruct (plantilla_tono p)).
  split.
  - apply Hmiembro. split; [done|]. apply listada_spec.
    split; [done|]. split; intros _; congruence.
  - intros q Hq Hle. apply Hmiembro in Hq as [Hq Hl].
    apply listada_spec in Hl as (Hqa & Hqt & Hqn).
    apply Hmax; [done|]. apply coincide_spec.
    specialize (Hqt Htipo). specialize (Hqn Htono).
    repeat split; try done; congruence.
Qed.

Lemma seleccionada_en_listado_witness :
  plantilla_formal 30
    "Estimado {nombre}, su saldo de {monto} tiene {dias_mora} días de mora."
  ∈ listar_plantillas (Some "email") (Some "formal") catalogo.
Proof.
  apply (seleccionada_en_listado "email" "formal" 45 catalogo).
  reflexivity.
Defined.

(** ** Rates of the comparison *)

Lemma shr_fexp_no_negativo m e l :
  0 <= m -> 0 <= shr_m (shr_fexp prec emax m e l).1.
Proof.
  intros Hm. unfold shr_fexp, shr.
  assert (Hrec : shr_m (shr_record_of_loc m l) = m) by (by destruct l as [|[]]).
  destruct (fexp prec emax (Zdigits2 m + e) - e) as [|n|n]; simpl; try lia.
  rewrite iter_shr_1_m by lia. rewrite Hrec.
  apply Z.div_pos; [done|]. apply Z.pow_pos_nonneg; lia.
Qed.

Lemma round_nearest_even_no_negativo m l : 0 <= m -> 0 <= round_nearest_even m l.
Proof.
  intros Hm. destruct l as [|[]]; simpl; try lia. destruct (Z.even m); lia.
Qed.

Lemma binary_round_aux_no_nan sx mx ex lx :
  0 <= mx -> binary_round_aux prec emax sx mx ex lx <> S754_nan.
Proof.
  intros Hm. unfold binary_round_aux.
  pose proof (shr_fexp_no_negativo mx ex lx Hm) as H1.
  destruct (shr_fexp prec emax mx ex lx) as [mrs' e']. simpl in H1.
  pose proof (round_nearest_even_no_negativo _ (loc_of_shr_record mrs') H1) as H2.
  pose proof (shr_fexp_no_negativo _ e' loc_Exact H2) as H3.
  destruct (shr_fexp prec emax _ e' loc_Exact) as [mrs'' e'']. simpl in H3.
  destruct (shr_m mrs'') as [|m|m]; [done| |lia].
  by destruct (e'' <=? emax - prec).
Qed.

Lemma Number_div_no_nan sx mx ex sy my ey :
  Number_div (S754_finite sx mx ex) (S754_finite sy my ey) <> S754_nan.
Proof.
  unfold Number_div, SFdiv.
  destruct (SFdiv_core_binary prec emax (Zpos mx) ex (Zpos my) ey) as [[mz ez] lz] eqn:E.
  apply binary_round_aux_no_nan.
  unfold SFdiv_core_binary in E.
  set (s := _ - _ - _) in E.
  set (m' := match s with Z0 => _ | Zpos _ => _ | Zneg _ => _ end) in E.
  assert (Hm' : 0 <= m').
  { subst m'. destruct s; [lia| |lia]. apply Z.shiftl_nonneg. lia. }
  pose proof (Z_div_mod m' (Zpos my) ltac:(lia)) as Hdm.
  destruct (Z.div_eucl m' (Zpos my)) as [q r]. injection E as <- _ _.
  destruct Hdm as [Heq Hr]. nia.
Qed.

Lemma digits2_pos_iter p k :
  digits2_pos (Pos.iter xO p k) = (digits2_pos p + k)%positive.
Proof.
  induction k as [|k IH] using Pos.peano_ind.
  - simpl. lia.
  - rewrite Pos.iter_succ. simpl. rewrite IH. lia.
Qed.

Lemma binary_round_aux_canonico sx mz ez :
  fexp prec emax (Zpos (digits2_pos mz) + ez) - ez = 0 ->
  ez <= emax - prec ->
  binary_round_aux prec emax sx (Zpos mz) ez loc_Exact = S754_finite sx mz ez.
Proof.
  intros Hf He. unfold binary_round_aux, shr_fexp. simpl Zdigits2.
  rewrite Hf. simpl. rewrite Hf. simpl.
  destruct (Z.leb_spec ez (emax - prec)); [done|lia].
Qed.

Lemma binary_round_exacto sx p :
  Zpos p < 2 ^ 53 -> exists m e, binary_round prec emax sx p 0 = S754_finite sx m e.
Proof.
  intros Hp. unfold binary_round, shl_align.
  pose proof (digits2_pos_cotas p) as [Hlo _].
  assert (Hd : Zpos (digits2_pos p) <= 53).
  { destruct (Z.le_gt_cases (Zpos (digits2_pos p)) 53) as [|Hgt]; [done|].
    assert (2 ^ 53 <= 2 ^ (Zpos (digits2_pos p) - 1)) by (apply Z.pow_le_mono_r; lia).
    lia. }
  assert (Hfexp : fexp prec emax (Zpos (digits2_pos p) + 0) = Zpos (digits2_pos p) - 53)
    by (unfold fexp, emin, prec, emax; lia).
  rewrite Hfexp.
  destruct (Zpos (digits2_pos p) - 53 - 0) as [|k|k] eqn:Ek; [|lia|].
  - exists p, 0. apply binary_round_aux_canonico.
    + unfold fexp, emin, prec, emax. lia.
    + unfold emax, prec. lia.
  - exists (Pos.iter xO p k), (Zpos (digits2_pos p) - 53).
    apply binary_round_aux_canonico.
    + rewrite digits2_pos_iter. unfold fexp, emin, prec, emax. lia.
    + unfold emax, prec. lia.
Qed.

(** An integer other than 0 and below 2^53 in magnitude is a finite
    Number. *)
Lemma Number_de_Z_finito z :
  z <> 0 -> Z.abs z < 2 ^ 53 -> exists s m e, Number_de_Z z = S754_finite s m e.
Proof.
  intros Hz Hb. destruct z as [|p|p]; [done| |].
  - destruct (binary_round_exacto false p) as (m & e & H); [lia|]. eauto.
  - destruct (binary_round_exacto true p) as (m & e & H); [lia|]. eauto.
Qed.

(** With a sent counter that is not 0 and is below 2^53 in magnitude, the
    Number a rate is printed from is never NaN, whatever the other counter
    is: the NaN of the comparison comes from the zero divisor only. *)
Theorem Number_tasa_no_NaN (ts : spec_float -> string) (cuenta enviados : Z) :
  enviados <> 0 ->
  Z.abs enviados < 2 ^ 53 ->
  Number_tasa cuenta enviados <> S754_nan /\
  tasa ts cuenta enviados = toFixed2 ts (Number_tasa cuenta enviados).
Proof.
  intros Hn Hb. split; [|done].
  unfold Number_tasa.
  change (Number_de_Z 100) with (S754_finite false 7036874417766400 (-46)).
  destruct (Number_de_Z_finito enviados Hn Hb) as (sy & my & ey & ->).
  pose proof (Number_de_Z_signo cuenta) as Hc.
  assert (Hcasos : (exists s, Number_de_Z cuenta = S754_zero s)
                   \/ (exists s m e, Number_de_Z cuenta = S754_finite s m e)
                   \/ (exists s, Number_de_Z cuenta = S754_infinity s)).
  { destruct cuenta; [left; eauto| |];
      destruct Hc as [(m & e & ->)| ->]; eauto 10. }
  destruct Hcasos as [[s ->]|[(s & m & e & ->)|[s ->]]]; [done| |done].
  pose proof (Number_div_no_nan s m e sy my ey) as Hq.
  destruct (Number_div (S754_finite s m e) (S754_finite sy my ey)) as [sq|sq| |sq mq eq];
    [done|done|done|].
  unfold Number_mul, SFmul. by apply binary_round_aux_no_nan.
Qed.

Lemma Number_tasa_no_NaN_witness :
  Number_tasa 7 25 <> S754_nan.
Proof.
  apply (Number_tasa_no_NaN (fun _ => EmptyString) 7 25).
  - discriminate.
  - reflexivity.
Defined.

(** ** Rendering *)

Lemma GetSubstitution_literal matched antes despues replacement :
  sin_dolar replacement = true ->
  GetSubstitution matched antes despues replacement = replacement.
Proof.
  induction replacement as [|c r IH]; simpl; intros H; [done|].
  apply andb_true_iff in H as [Hc Hr]. apply negb_true_iff in Hc.
  by rewrite Hc, IH.
Qed.

(** In a template that holds [{nombre}], a customer name without a dollar
    sign takes the place of the first [{nombre}] as it is written, and the
    text after that first token is delivered untouched, a further [{nombre}]
    included: given that none of the other three tokens occurs in the
    result. *)
Theorem contenido_de_nombre (env : Entorno) (p : Plantilla) (cliente : Cliente)
    (deuda : Deuda) (a b : string) :
  plantilla_plantilla p = (a ++ "{nombre}" ++ b)%string ->
  String.index 0 "{nombre}" (a ++ "{nombre}" ++ b)%string = Some (String.length a) ->
  sin_dolar (cliente_nombre cliente) = true ->
  String.index 0 "{monto}" (a ++ cliente_nombre cliente ++ b)%string = None ->
  String.index 0 "{dias_mora}" (a ++ cliente_nombre cliente ++ b)%string = None ->
  String.index 0 "{fecha_vencimiento}" (a ++ cliente_nombre cliente ++ b)%string = None ->
  contenido_de env p cliente deuda = (a ++ cliente_nombre cliente ++ b)%string.
Proof.
  intros Hp Hi Hn H1 H2 H3. unfold contenido_de. rewrite Hp.
  rewrite (String_replace_primera a "{nombre}" b) by done.
  rewrite GetSubstitution_literal by done.
  rewrite (String_replace_ausente _ "{monto}") by exact H1.
  rewrite (String_replace_ausente _ "{dias_mora}") by exact H2.
  by rewrite (String_replace_ausente _ "{fecha_vencimiento}") by exact H3.
Qed.

Lemma contenido_de_nombre_witness :
  contenido_de (entorno_ejemplo None)
    (plantilla_formal 0 "Hola {nombre}. {nombre}, gracias.") cliente_ana deuda_45
  = "Hola Ana. {nombre}, gracias.".
Proof.
  apply (contenido_de_nombre (entorno_ejemplo None)
           (plantilla_formal 0 "Hola {nombre}. {nombre}, gracias.")
           cliente_ana deuda_45 "Hola " ". {nombre}, gracias.");
    reflexivity.
Defined.
